(** * kana2 post filtering (src/kana2/filtering.py): a shallow embedding

    The development follows the layout of the Python module: the Python
    strings, values and operators the filter relies on, [shlex.split], the
    two metatag tables, [_tag_present], [_meta_num_match] with its inner
    [compare], [_filter_post] and [search].  Exceptions are explicit: every
    function that can raise returns a [result].  A Python [set] is a [gset]
    iterated in the order of [elements]; the decision of [_filter_post] is
    shown not to depend on that order.  The helpers of [kana2.utils], which
    the sources at hand do not include, are parameters ([Externals]).

    Two neighbours of the filter are embedded as well: [Info.enhance]
    (src/kana2/resources/info.py), which adds the derived keys the metatags
    [child], [mpixels], [ratio], [dltype], [dlsize] and [status:broken]
    read, with the client, the clock, [whratio] and the HTTP request as
    parameters ([InfoEnv]); and [unesc] of the command line
    (src/lunakit/cli.py).

    The properties come after the definitions: facts about strings, plain
    tags, the classifier, string and numeric metatags, missing fields, the
    iteration order, negation and the OR group; then the decision rule in
    closed form, what [search] yields, the comparison syntaxes on integer
    metatags, post enrichment, the command line, and queries of plain
    tags. *)

From Stdlib Require Import ZArith Ascii String Bool Floats.
From stdpp Require Import base option list gmap sets strings.

Local Open Scope Z_scope.

(** ** Exceptions and the error monad *)

Inductive exn : Type :=
| KeyError (key : string)
| TypeError
| ValueError (msg : string)
| IndexError
| AttributeError
| ZeroDivisionError
| OverflowError.

Inductive result (A : Type) : Type :=
| Ok (a : A)
| Raise (e : exn).

Arguments Ok {A} a.
Arguments Raise {A} e.

Definition bind {A B} (m : result A) (k : A → result B) : result B :=
  match m with
  | Ok a => k a
  | Raise e => Raise e
  end.

Notation "'do' x <- m ; k" := (bind m (fun x => k))
  (at level 10, x name, m at level 100, k at level 200).

#[global] Instance result_fmap : FMap result := fun A B f m =>
  match m with
  | Ok a => Ok (f a)
  | Raise e => Raise e
  end.

Definition is_ok {A} (r : result A) : bool :=
  match r with Ok _ => true | Raise _ => false end.

(** ** Python [str] operations

    Strings are sequences of ASCII characters. *)

Module PyStr.

Definition char_in (c : ascii) (chars : string) : bool :=
  existsb (Ascii.eqb c) (list_ascii_of_string chars).

(** [s.startswith(p)] *)
Definition startswith (s p : string) : bool := String.prefix p s.

(** [s[n:]] for [0 <= n] *)
Fixpoint drop (n : nat) (s : string) : string :=
  match n, s with
  | O, _ => s
  | S _, EmptyString => EmptyString
  | S k, String _ s' => drop k s'
  end.

(** [s[:n]] for [0 <= n] *)
Fixpoint take (n : nat) (s : string) : string :=
  match n, s with
  | O, _ => EmptyString
  | S _, EmptyString => EmptyString
  | S k, String c s' => String c (take k s')
  end.

(** [s[:-n]] for [0 < n] *)
Definition drop_end (n : nat) (s : string) : string :=
  take (String.length s - n) s.

(** [s.endswith(p)] *)
Definition endswith (s p : string) : bool :=
  (String.length p <=? String.length s)%nat
  && String.eqb (drop (String.length s - String.length p) s) p.

(** [needle in hay] *)
Fixpoint contains (needle hay : string) : bool :=
  String.prefix needle hay ||
  match hay with
  | EmptyString => false
  | String _ hay' => contains needle hay'
  end.

(** [s.split(sep)] and [s.split(sep, maxsplit=n)] for a non-empty [sep]:
    occurrences are taken left to right and do not overlap.  [skip] counts
    the characters of a separator that are still to be passed over and
    [budget] the splits that remain ([None]: no limit).  The head of the
    returned list is the piece under construction. *)
Fixpoint split_go (sep : string) (budget : option nat) (skip : nat)
    (s : string) : list string :=
  match s with
  | EmptyString => [EmptyString]
  | String c s' =>
      match skip with
      | S k => split_go sep budget k s'
      | O =>
          if String.prefix sep s then
            match budget with
            | Some O => [s]
            | Some (S b) =>
                EmptyString :: split_go sep (Some b) (String.length sep - 1) s'
            | None =>
                EmptyString :: split_go sep None (String.length sep - 1) s'
            end
          else
            match split_go sep budget O s' with
            | w :: ws => String c w :: ws
            | [] => [String c EmptyString]
            end
      end
  end.

Definition split (s sep : string) : list string := split_go sep None 0 s.
Definition split_max (s sep : string) (maxsplit : nat) : list string :=
  split_go sep (Some maxsplit) 0 s.

(** [s.rstrip(chars)] *)
Fixpoint rstrip (s chars : string) : string :=
  match s with
  | EmptyString => EmptyString
  | String c s' =>
      match rstrip s' chars with
      | EmptyString => if char_in c chars then EmptyString else String c EmptyString
      | r => String c r
      end
  end.

(** [s[0]] *)
Definition first (s : string) : result ascii :=
  match s with
  | EmptyString => Raise IndexError
  | String c _ => Ok c
  end.

(** [sep.join(l)] *)
Fixpoint join (sep : string) (l : list string) : string :=
  match l with
  | [] => EmptyString
  | [w] => w
  | w :: ws => w +:+ sep +:+ join sep ws
  end.

(** The characters [str.isspace] accepts, among ASCII. *)
Definition isspace (c : ascii) : bool :=
  match c with
  | "009" | "010" | "011" | "012" | "013"
  | "028" | "029" | "030" | "031" | " " => true
  | _ => false
  end%char.

Definition whitespace_free (s : string) : bool :=
  forallb (fun c => negb (isspace c)) (list_ascii_of_string s).

End PyStr.

(** ** Python values

    The scalar values a post's info mapping holds and the converters
    return: [None], [bool], [int], [float] (IEEE binary64, as the kernel's
    primitive floats), [str], and [arrow] instants ([VDate], counted in
    microseconds since the epoch: instants are totally ordered). *)

Inductive pyval : Type :=
| VNone
| VBool (b : bool)
| VInt (z : Z)
| VFloat (f : float)
| VStr (s : string)
| VDate (t : Z).

(** The parts of the runtime and of [kana2.utils] that the filter calls but
    whose code is not in the sources at hand.  They are kept abstract: all
    theorems hold for every interpretation. *)
Class Externals : Type := {
  (** [float(s)] for a [str] *)
  float_of_str : string → result float;
  (** [str(f)] for a [float] *)
  float_repr : float → string;
  (** [str(d)] for an [arrow] instant *)
  arrow_str : Z → string;
  (** [utils.ratio2float], [utils.age2date], [utils.human2bytes] *)
  ratio2float : pyval → result pyval;
  age2date : pyval → result pyval;
  human2bytes : pyval → result pyval;
  (** [lambda v: arrow.get(v).replace(tzinfo="local").to("UTC-4")] *)
  date_lambda : pyval → result pyval;
}.

Module Py.

(** *** Numbers *)

Definition prec : Z := 53.
Definition emax : Z := 1024.

(** An integer as an exact (not normalised) binary float. *)
Definition Z_to_SF (z : Z) : spec_float :=
  match z with
  | Z0 => S754_zero false
  | Zpos p => S754_finite false p 0
  | Zneg p => S754_finite true p 0
  end.

(** [float(z)]: round to nearest, ties to even; too large an integer
    raises [OverflowError]. *)
Definition float_of_Z (z : Z) : result float :=
  match binary_normalize prec emax z 0 false with
  | S754_infinity _ => Raise OverflowError
  | r => Ok (SF2Prim r)
  end.

(** [int(f)]: truncation toward zero. *)
Definition Z_of_float (f : float) : result Z :=
  match Prim2SF f with
  | S754_nan => Raise (ValueError "cannot convert float NaN to integer")
  | S754_infinity _ =>
      Raise OverflowError
  | S754_zero _ => Ok 0
  | S754_finite s m e =>
      let a := if 0 <=? e then Z.pos m * 2 ^ e else Z.pos m / 2 ^ (- e) in
      Ok (if s then - a else a)
  end.

(** Exact comparison of an integer with a float ([None]: NaN). *)
Definition Z_float_compare (z : Z) (f : float) : option comparison :=
  match Prim2SF f with
  | S754_nan => None
  | S754_infinity s => Some (if s then Gt else Lt)
  | S754_zero _ => Some (z ?= 0)
  | S754_finite s m e =>
      let fm := if s then Z.neg m else Z.pos m in
      Some (if 0 <=? e then z ?= fm * 2 ^ e else z * 2 ^ (- e) ?= fm)
  end.

Definition float_compare (f g : float) : option comparison :=
  match PrimFloat.compare f g with
  | FEq => Some Eq
  | FLt => Some Lt
  | FGt => Some Gt
  | FNotComparable => None
  end.

(** [int] and [bool] operands of arithmetic and comparisons. *)
Inductive number : Type :=
| NInt (z : Z)
| NFloat (f : float).

Definition as_number (v : pyval) : option number :=
  match v with
  | VBool b => Some (NInt (Z.b2z b))
  | VInt z => Some (NInt z)
  | VFloat f => Some (NFloat f)
  | _ => None
  end.

Definition number_compare (a b : number) : option comparison :=
  match a, b with
  | NInt x, NInt y => Some (x ?= y)
  | NInt x, NFloat g => Z_float_compare x g
  | NFloat f, NInt y => CompOpp <$> Z_float_compare y f
  | NFloat f, NFloat g => float_compare f g
  end.

(** *** Truth value, comparisons, equality *)

(** [bool(v)] *)
Definition truthy (v : pyval) : bool :=
  match v with
  | VNone => false
  | VBool b => b
  | VInt z => negb (z =? 0)
  | VFloat f => negb (PrimFloat.eqb f 0)
  | VStr s => negb (String.eqb s "")
  | VDate _ => true
  end.

(** The ordering behind [<], [<=], [>], [>=]; [TypeError] for operands
    that are not ordered with each other. *)
Definition order (a b : pyval) : result (option comparison) :=
  match as_number a, as_number b with
  | Some x, Some y => Ok (number_compare x y)
  | _, _ =>
      match a, b with
      | VStr s, VStr t => Ok (Some (String.compare s t))
      | VDate s, VDate t => Ok (Some (s ?= t))
      | _, _ => Raise TypeError
      end
  end.

Definition le (a b : pyval) : result bool :=
  do c <- order a b;
  Ok match c with Some Lt | Some Eq => true | _ => false end.
Definition ge (a b : pyval) : result bool :=
  do c <- order a b;
  Ok match c with Some Gt | Some Eq => true | _ => false end.
Definition lt (a b : pyval) : result bool :=
  do c <- order a b;
  Ok match c with Some Lt => true | _ => false end.
Definition gt (a b : pyval) : result bool :=
  do c <- order a b;
  Ok match c with Some Gt => true | _ => false end.

(** [a == b] *)
Definition eq (a b : pyval) : bool :=
  match as_number a, as_number b with
  | Some x, Some y =>
      match number_compare x y with Some Eq => true | _ => false end
  | _, _ =>
      match a, b with
      | VNone, VNone => true
      | VStr s, VStr t => String.eqb s t
      | VDate s, VDate t => s =? t
      | _, _ => false
      end
  end.

(** *** Arithmetic: [a / b], [a - b], [a + b] *)

Definition to_float (x : number) : result float :=
  match x with
  | NInt z => float_of_Z z
  | NFloat f => Ok f
  end.

Definition truediv (a b : pyval) : result pyval :=
  match as_number a, as_number b with
  | Some (NInt x), Some (NInt y) =>
      if y =? 0 then Raise ZeroDivisionError
      else
        match SFdiv prec emax (Z_to_SF x) (Z_to_SF y) with
        | S754_infinity _ => Raise OverflowError
        | r => Ok (VFloat (SF2Prim r))
        end
  | Some x, Some y =>
      do f <- to_float x;
      do g <- to_float y;
      if PrimFloat.eqb g 0 then Raise ZeroDivisionError
      else Ok (VFloat (PrimFloat.div f g))
  | _, _ => Raise TypeError
  end.

(** Dates take part in no arithmetic of the filter: the only sums and
    differences it forms have a quotient as an operand. *)
Definition sub (a b : pyval) : result pyval :=
  match as_number a, as_number b with
  | Some (NInt x), Some (NInt y) => Ok (VInt (x - y))
  | Some x, Some y =>
      do f <- to_float x;
      do g <- to_float y;
      Ok (VFloat (PrimFloat.sub f g))
  | _, _ => Raise TypeError
  end.

Definition add (a b : pyval) : result pyval :=
  match as_number a, as_number b with
  | Some (NInt x), Some (NInt y) => Ok (VInt (x + y))
  | Some x, Some y =>
      do f <- to_float x;
      do g <- to_float y;
      Ok (VFloat (PrimFloat.add f g))
  | _, _ =>
      match a, b with
      | VStr s, VStr t => Ok (VStr (s +:+ t))
      | _, _ => Raise TypeError
      end
  end.

End Py.

(** ** The builtins [str], [int] and [float] *)

Module Builtin.

(** Decimal digits of a non-negative integer, most significant first. *)
Fixpoint digits_go (fuel : nat) (n : Z) (acc : string) : string :=
  let acc' := String (ascii_of_nat (48 + Z.to_nat (n mod 10))) acc in
  match fuel with
  | O => acc'
  | S k => if n <? 10 then acc' else digits_go k (n / 10) acc'
  end.

Definition str_of_Z (z : Z) : string :=
  let n := Z.abs z in
  let d := digits_go (Z.to_nat (Z.log2 n)) n EmptyString in
  if z <? 0 then String "-" d else d.

Section WithExternals.
Context `{Externals}.

(** [str(v)] *)
Definition str (v : pyval) : string :=
  match v with
  | VNone => "None"
  | VBool true => "True"
  | VBool false => "False"
  | VInt z => str_of_Z z
  | VFloat f => float_repr f
  | VStr s => s
  | VDate t => arrow_str t
  end.
End WithExternals.

(** The whitespace [int] skips around a literal. *)
Definition int_space (c : ascii) : bool :=
  match c with
  | "009" | "010" | "011" | "012" | "013" | " " => true
  | _ => false
  end%char.

Fixpoint lstrip_space (s : string) : string :=
  match s with
  | String c s' => if int_space c then lstrip_space s' else s
  | EmptyString => EmptyString
  end.

Fixpoint rstrip_space (s : string) : string :=
  match s with
  | EmptyString => EmptyString
  | String c s' =>
      match rstrip_space s' with
      | EmptyString => if int_space c then EmptyString else String c EmptyString
      | r => String c r
      end
  end.

Definition digit_of (c : ascii) : option Z :=
  let n := Z.of_nat (nat_of_ascii c) in
  if (48 <=? n) && (n <=? 57) then Some (n - 48) else None.

(** Where the scan of a decimal literal stands: nothing read yet, after a
    digit, or after an underscore (which a digit must follow). *)
Inductive lit_state : Type := LitStart | LitDigit | LitUnderscore.

Fixpoint parse_digits (st : lit_state) (acc : Z) (s : string) : option Z :=
  match s with
  | EmptyString =>
      match st with LitDigit => Some acc | _ => None end
  | String c s' =>
      match digit_of c with
      | Some d => parse_digits LitDigit (10 * acc + d) s'
      | None =>
          if Ascii.eqb c "_" then
            match st with
            | LitDigit => parse_digits LitUnderscore acc s'
            | _ => None
            end
          else None
      end
  end.

(** [int(s)] for a [str], base ten: optional whitespace around, an optional
    sign, digits with single underscores between them. *)
Definition int_of_str (s : string) : option Z :=
  match lstrip_space s with
  | String "-" body => Z.opp <$> parse_digits LitStart 0 (rstrip_space body)
  | String "+" body => parse_digits LitStart 0 (rstrip_space body)
  | body => parse_digits LitStart 0 (rstrip_space body)
  end.

(** [int(v)] *)
Definition int (v : pyval) : result pyval :=
  match v with
  | VBool b => Ok (VInt (Z.b2z b))
  | VInt z => Ok (VInt z)
  | VFloat f => VInt <$> Py.Z_of_float f
  | VStr s =>
      match int_of_str s with
      | Some z => Ok (VInt z)
      | None => Raise (ValueError "invalid literal for int() with base 10")
      end
  | VNone | VDate _ => Raise TypeError
  end.

Section WithFloatParser.
Context `{Externals}.

(** [float(v)] *)
Definition float (v : pyval) : result pyval :=
  match v with
  | VBool b => VFloat <$> Py.float_of_Z (Z.b2z b)
  | VInt z => VFloat <$> Py.float_of_Z z
  | VFloat f => Ok (VFloat f)
  | VStr s => VFloat <$> float_of_str s
  | VNone | VDate _ => Raise TypeError
  end.
End WithFloatParser.

End Builtin.

(** ** [shlex.split(s)]

    The lexer in POSIX mode with [whitespace_split] set, no comment
    characters and no punctuation characters, as [shlex.split] configures
    it.  [LWhite] is the lexer's state [' '], [LWord] its state ['a'],
    [LQuote q] the state of an open quote [q], and [LEscape back] the state
    after a backslash, where [back] is [escapedstate]: [None] for ['a'],
    [Some q] for a quote. *)

Module Shlex.

Inductive state : Type :=
| LWhite
| LWord
| LQuote (q : ascii)
| LEscape (back : option ascii).

Definition whitespace : string :=
  String " " (String "009" (String "013" (String "010" EmptyString))).
Definition quotes : string := String "'" (String "034" EmptyString).
Definition escape : string := String "\" EmptyString.
Definition escapedquotes : string := String "034" EmptyString.

Definition push (token : string) (c : ascii) : string :=
  token +:+ String c EmptyString.

(** The end of [read_token]: an empty token that was never quoted is the
    end-of-input marker, not a token. *)
Definition emit (token : string) (quoted : bool) : list string :=
  if negb quoted && String.eqb token "" then [] else [token].

Fixpoint tokens (st : state) (token : string) (quoted : bool)
    (s : string) : result (list string) :=
  match s with
  | EmptyString =>
      match st with
      | LWhite | LWord => Ok (emit token quoted)
      | LQuote _ => Raise (ValueError "No closing quotation")
      | LEscape _ => Raise (ValueError "No escaped character")
      end
  | String c s' =>
      match st with
      | LWhite =>
          if PyStr.char_in c whitespace then
            if negb (String.eqb token "") || quoted then
              (token ::.) <$> tokens LWhite "" false s'
            else tokens LWhite token quoted s'
          else if PyStr.char_in c escape then
            tokens (LEscape None) token quoted s'
          else if PyStr.char_in c quotes then
            tokens (LQuote c) token quoted s'
          else tokens LWord (String c EmptyString) quoted s'
      | LQuote q =>
          if Ascii.eqb c q then tokens LWord token true s'
          else if PyStr.char_in c escape && PyStr.char_in q escapedquotes then
            tokens (LEscape (Some q)) token true s'
          else tokens (LQuote q) (push token c) true s'
      | LEscape back =>
          let token :=
            match back with
            | Some q =>
                if negb (Ascii.eqb c "\") && negb (Ascii.eqb c q)
                then push token "\" else token
            | None => token
            end in
          tokens (match back with Some q => LQuote q | None => LWord end)
                 (push token c) quoted s'
      | LWord =>
          if PyStr.char_in c whitespace then
            if negb (String.eqb token "") || quoted then
              (token ::.) <$> tokens LWhite "" false s'
            else tokens LWhite token quoted s'
          else if PyStr.char_in c quotes then
            tokens (LQuote c) token quoted s'
          else if PyStr.char_in c escape then
            tokens (LEscape None) token quoted s'
          else tokens LWord (push token c) quoted s'
      end
  end.

Definition split (s : string) : result (list string) :=
  tokens LWhite "" false s.

End Shlex.

(** ** Posts *)

(** A post, as far as the filter reads it: [post["info"]] is a mapping from
    keys to values. *)
Record Post : Type := { info : gmap string pyval }.

(** [d[key]] *)
Definition getitem (d : gmap string pyval) (key : string) : result pyval :=
  match d !! key with
  | Some v => Ok v
  | None => Raise (KeyError key)
  end.

(** ** The metatag tables *)

Inductive converter : Type :=
| conv_int
| conv_float
| conv_ratio2float
| conv_age2date
| conv_date
| conv_human2bytes.

(** An entry [[field, convert, flag...]] of [META_NUM_TAGS]. *)
Record num_entry : Type := {
  field : string;
  convert : converter;
  flags : list string;
}.

Definition entry (f : string) (c : converter) (fl : list string) : num_entry :=
  {| field := f; convert := c; flags := fl |}.

Definition META_NUM_TAGS : list (string * num_entry) := [
  ("width",    entry "image_width"         conv_int []);
  ("height",   entry "image_height"        conv_int []);
  ("mpixels",  entry "mpixels"             conv_float []);
  ("score",    entry "score"               conv_int []);
  ("favcount", entry "fav_count"           conv_int []);
  ("id",       entry "id"                  conv_int []);
  ("pixiv",    entry "pixiv_id"            conv_int []);
  ("pixiv_id", entry "pixiv_id"            conv_int []);
  ("tagcount", entry "tag_count"           conv_int []);
  ("gentags",  entry "tag_count_general"   conv_int []);
  ("arttags",  entry "tag_count_artist"    conv_int []);
  ("chartags", entry "tag_count_character" conv_int []);
  ("copytags", entry "tag_count_copyright" conv_int []);
  ("metatags", entry "tag_count_meta"      conv_int []);
  ("ratio",    entry "ratio_float" conv_ratio2float []);
  ("age",      entry "created_at"  conv_age2date ["reverse_cmp"]);
  ("date",     entry "created_at"  conv_date []);
  ("parent",   entry "parent_id"   conv_int []);
  ("child",    entry "children_num" conv_int []);
  ("filesize", entry "file_size" conv_human2bytes ["eq_fuzzy_20"]);
  ("dlsize",   entry "dl_size"   conv_human2bytes [])
].

(** [d[key]] for a table written as a literal. *)
Fixpoint table_get {A} (d : list (string * A)) (key : string) : result A :=
  match d with
  | [] => Raise (KeyError key)
  | (k, a) :: d' => if String.eqb k key then Ok a else table_get d' key
  end.

(** [key in d] *)
Definition table_has {A} (d : list (string * A)) (key : string) : bool :=
  existsb (fun ka => String.eqb ka.1 key) d.

(** [flag in META_NUM_TAGS[tag]]: the entry is a list, so the test looks at
    the field name as well as the flags (the converter, a function, equals no
    string). *)
Definition entry_contains (flag : string) (e : num_entry) : bool :=
  String.eqb (field e) flag || existsb (String.eqb flag) (flags e).

Section Filtering.
Context `{Externals}.

Definition apply_converter (c : converter) : pyval → result pyval :=
  match c with
  | conv_int => Builtin.int
  | conv_float => Builtin.float
  | conv_ratio2float => ratio2float
  | conv_age2date => age2date
  | conv_date => date_lambda
  | conv_human2bytes => human2bytes
  end.

(** The entries of [META_STR_TAGS_FUNCS]; [None] for [source] and
    [order]. *)
Definition str_func : Type := Post → string → result pyval.

Definition META_STR_TAGS_FUNCS : list (string * option str_func) := [
  ("md5", Some (fun p v =>
     do x <- getitem (info p) "md5"; Ok (VBool (Py.eq x (VStr v)))));
  ("filetype", Some (fun p v =>
     do x <- getitem (info p) "file_ext"; Ok (VBool (Py.eq x (VStr v)))));
  ("dltype", Some (fun p v =>
     do x <- getitem (info p) "dl_ext"; Ok (VBool (Py.eq x (VStr v)))));
  ("rating", Some (fun p v =>
     do x <- getitem (info p) "rating";
     match x with
     | VStr s => Ok (VBool (PyStr.startswith s v))
     | _ => Raise AttributeError
     end));
  ("locked", Some (fun p v =>
     getitem (info p) ("is_" +:+ v +:+ "_locked")));
  ("status", Some (fun p v =>
     if String.eqb v "any" || String.eqb v "all" then Ok (VBool true)
     else getitem (info p) ("is_" +:+ v)));
  ("source", None);
  ("order", None)
].

(** [f(post, value)] for an entry [f] of the table: [None] is not
    callable. *)
Definition call_str_func (f : option str_func) (p : Post) (v : string)
    : result pyval :=
  match f with
  | Some g => g p v
  | None => Raise TypeError
  end.

Definition _tag_present (post : Post) (tag : string) : result bool :=
  let needle := " " +:+ tag +:+ " " in
  do tag_string <- getitem (info post) "tag_string";
  Ok (PyStr.contains needle (" " +:+ Builtin.str tag_string +:+ " ")).

(** [a <= v <= b], with the operands given as the expressions that produce
    them: the right one is only evaluated when the left test holds. *)
Definition chain_le (a : result pyval) (v : pyval) (b : result pyval)
    : result bool :=
  do x <- a;
  do lower <- Py.le x v;
  if lower then do y <- b; Py.le v y else Ok false.

Definition invalid_term (tag value : string) : exn :=
  ValueError ("Invalid search term value: '" +:+ tag +:+ ":" +:+ value +:+ "'.").

Definition compare (tag : string) (convert : pyval → result pyval)
    (info_v : pyval) (value : string) (eq_fuzzy_20 reverse_cmp : bool)
    : result bool :=
  if String.eqb value "none" then Ok (negb (Py.truthy info_v))
  else if String.eqb value "any" then Ok (Py.truthy info_v)
  else if PyStr.startswith value ">=" then
    do rhs <- convert (VStr (PyStr.drop 2 value)); Py.ge info_v rhs
  else if PyStr.endswith value ".." then
    do rhs <- convert (VStr (PyStr.drop_end 2 value)); Py.ge info_v rhs
  else if PyStr.startswith value "<=" || PyStr.startswith value ".." then
    do rhs <- convert (VStr (PyStr.drop 2 value)); Py.le info_v rhs
  else if PyStr.startswith value ">" then
    do rhs <- convert (VStr (PyStr.drop 1 value)); Py.gt info_v rhs
  else if PyStr.startswith value "<" then
    do rhs <- convert (VStr (PyStr.drop 1 value)); Py.lt info_v rhs
  else if PyStr.contains ".." value then
    match PyStr.split_max value ".." 1 with
    | [begin_; end_] =>
        if reverse_cmp then
          do inside <- chain_le (convert (VStr end_)) info_v
                            (convert (VStr begin_));
          Ok (negb inside)
        else
          chain_le (convert (VStr begin_)) info_v (convert (VStr end_))
    | _ => Raise (ValueError "not enough values to unpack")
    end
  else if PyStr.contains "," value then
    Ok (existsb (String.eqb (Builtin.str info_v)) (PyStr.split value ","))
  else
    (* try: ... except Exception: pass; then the raise below the try *)
    match convert (VStr value) with
    | Raise _ => Raise (invalid_term tag value)
    | Ok value' =>
        let body :=
          if eq_fuzzy_20 then
            chain_le (do d <- Py.truediv value' (VInt 20); Py.sub value' d)
                     info_v
                     (do d <- Py.truediv value' (VInt 20); Py.add value' d)
          else Ok (Py.eq info_v value') in
        match body with
        | Ok b => Ok b
        | Raise _ => Raise (invalid_term tag (Builtin.str value'))
        end
    end.

Definition _meta_num_match (post : Post) (tag value : string)
    : result bool :=
  do e <- table_get META_NUM_TAGS tag;
  let convert := apply_converter (convert e) in
  do raw <- getitem (info post) (field e);
  do info_v <- convert raw;
  let eq_fuzzy_20 := entry_contains "eq_fuzzy_20" e in
  let reverse_cmp := entry_contains "reverse_cmp" e in
  do result <- compare tag convert info_v value eq_fuzzy_20 reverse_cmp;
  Ok (if negb reverse_cmp then result else negb result).

End Filtering.

(** ** [_filter_post] and [search] *)

(** A [dict] with [str] keys, in insertion order: assigning to a key that is
    present replaces its value in place. *)
Definition dict (V : Type) : Type := list (string * V).

Fixpoint dict_set {V} (d : dict V) (key : string) (v : V) : dict V :=
  match d with
  | [] => [(key, v)]
  | (k, w) :: d' =>
      if String.eqb k key then (k, v) :: d' else (k, w) :: dict_set d' key v
  end.

(** What [_filter_post] returns: the decision, or with [return_analyze] the
    presence map. *)
Inductive filter_result : Type :=
| Decision (b : bool)
| Analysis (presences : dict pyval).

(** What the generator [search] yields. *)
Inductive yielded : Type :=
| YPost (post : Post)
| YAnalysis (post : Post) (presences : dict pyval).

Section Search.
Context `{Externals}.

(** [tag, value = tag_val.split(":", maxsplit=1)] *)
Definition unpack_term (tag_val : string) : result (string * string) :=
  match PyStr.split_max tag_val ":" 1 with
  | [tag; value] => Ok (tag, value)
  | _ => Raise (ValueError "not enough values to unpack")
  end.

(** The three loops that fill [presences]. *)
Fixpoint eval_tags (post : Post) (tags : list string)
    (presences : dict pyval) : result (dict pyval) :=
  match tags with
  | [] => Ok presences
  | tag :: rest =>
      do present <- _tag_present post tag;
      eval_tags post rest (dict_set presences tag (VBool present))
  end.

(** The value the second loop stores for a term. *)
Definition meta_num_term (post : Post) (tag_val : string) : result bool :=
  do tv <- unpack_term tag_val;
  _meta_num_match post (PyStr.rstrip tv.1 "~-") tv.2.

Fixpoint eval_meta_num (post : Post) (terms : list string)
    (presences : dict pyval) : result (dict pyval) :=
  match terms with
  | [] => Ok presences
  | tag_val :: rest =>
      do present <- meta_num_term post tag_val;
      eval_meta_num post rest (dict_set presences tag_val (VBool present))
  end.

(** The value the third loop stores for a term. *)
Definition meta_str_term (post : Post) (tag_val : string) : result pyval :=
  do tv <- unpack_term tag_val;
  do f <- table_get META_STR_TAGS_FUNCS tv.1;
  call_str_func f post tv.2.

Fixpoint eval_meta_str (post : Post) (terms : list string)
    (presences : dict pyval) : result (dict pyval) :=
  match terms with
  | [] => Ok presences
  | tag_val :: rest =>
      do present <- meta_str_term post tag_val;
      eval_meta_str post rest (dict_set presences tag_val present)
  end.

(** The loop over [presences.items()], with [tilde_tag_in_search] and
    [one_tilde_tag_present] as accumulators, and the test after it. *)
Fixpoint decide_presences (items : dict pyval)
    (tilde_tag_in_search one_tilde_tag_present : bool) : result bool :=
  match items with
  | [] => Ok (negb (tilde_tag_in_search && negb one_tilde_tag_present))
  | (term, present) :: rest =>
      do c <- PyStr.first term;
      if Ascii.eqb c "-" && Py.truthy present then Ok false
      else if negb (Ascii.eqb c "~") && negb (Py.truthy present) then Ok false
      else if Ascii.eqb c "~" then
        decide_presences rest true
          (if Py.truthy present then true else one_tilde_tag_present)
      else decide_presences rest tilde_tag_in_search one_tilde_tag_present
  end.

(** [_filter_post] for given iteration orders of its three sets. *)
Definition filter_post_in_order (post : Post)
    (simple_tags meta_num meta_str : list string) (return_analyze : bool)
    : result filter_result :=
  do p1 <- eval_tags post simple_tags [];
  do p2 <- eval_meta_num post meta_num p1;
  do presences <- eval_meta_str post meta_str p2;
  if return_analyze then Ok (Analysis presences)
  else Decision <$> decide_presences presences false false.

Definition _filter_post (post : Post)
    (simple_tags meta_num meta_str : gset string) (return_analyze : bool)
    : result filter_result :=
  filter_post_in_order post (elements simple_tags) (elements meta_num)
    (elements meta_str) return_analyze.

(** [t.split(":")[0]] *)
Definition term_name (t : string) : string :=
  match PyStr.split t ":" with
  | name :: _ => name
  | [] => EmptyString
  end.

(** The classification at the head of [search]:
    [(tags, meta_num, meta_str)]. *)
Definition classify_terms (terms : gset string)
    : gset string * gset string * gset string :=
  let meta_num :=
    filter (fun t => table_has META_NUM_TAGS (term_name t) = true) terms in
  let meta_str :=
    filter (fun t => table_has META_STR_TAGS_FUNCS (term_name t) = true)
           terms in
  let tags := terms ∖ meta_num ∖ meta_str in
  (tags, meta_num, meta_str).

Definition classify (terms : string)
    : result (gset string * gset string * gset string) :=
  do tokens <- Shlex.split terms;
  Ok (classify_terms (list_to_set tokens)).

(** The loop of the generator: what it yields, and the exception that ends
    it if one is raised. *)
Fixpoint search_loop (posts : list Post)
    (tags meta_num meta_str : gset string) (yield_analyze : bool)
    : list yielded * option exn :=
  match posts with
  | [] => ([], None)
  | post :: rest =>
      match _filter_post post tags meta_num meta_str yield_analyze with
      | Raise e => ([], Some e)
      | Ok r =>
          let out := search_loop rest tags meta_num meta_str yield_analyze in
          match r with
          | Analysis presences => (YAnalysis post presences :: out.1, out.2)
          | Decision true => (YPost post :: out.1, out.2)
          | Decision false => out
          end
      end
  end.

Definition search (posts : list Post) (terms : string)
    (yield_analyze : bool) : list yielded * option exn :=
  match classify terms with
  | Raise e => ([], Some e)
  | Ok (tags, meta_num, meta_str) =>
      search_loop posts tags meta_num meta_str yield_analyze
  end.

End Search.

(** ** An interpretation of the externals, to run the definitions

    Sizes are plain byte counts, floats are read from and printed as integer
    literals, and an age is a number of days before a fixed instant. *)

Module Sample.

Definition now : Z := 1540000000000000.
Definition day : Z := 86400000000.

Definition age_to_date (v : pyval) : result pyval :=
  match v with
  | VDate t => Ok (VDate t)
  | VStr "1day" => Ok (VDate (now - day))
  | VStr "1week" => Ok (VDate (now - 7 * day))
  | VStr s =>
      match Builtin.int_of_str s with
      | Some n => Ok (VDate (now - n * day))
      | None => Raise (ValueError "age")
      end
  | _ => Raise TypeError
  end.

Definition to_date (v : pyval) : result pyval :=
  match v with
  | VDate t => Ok (VDate t)
  | _ => Raise TypeError
  end.

Definition parse_float (s : string) : result float :=
  match Builtin.int_of_str s with
  | Some z => Py.float_of_Z z
  | None => Raise (ValueError "could not convert string to float")
  end.

Definition print_float (f : float) : string :=
  match Py.Z_of_float f with
  | Ok z => Builtin.str_of_Z z +:+ ".0"
  | Raise _ => "nan"
  end.

Definition to_ratio (v : pyval) : result pyval :=
  match v with
  | VFloat f => Ok (VFloat f)
  | VStr s => VFloat <$> parse_float s
  | _ => Raise TypeError
  end.

Definition externals : Externals := {|
  float_of_str := parse_float;
  float_repr := print_float;
  arrow_str := Builtin.str_of_Z;
  ratio2float := to_ratio;
  age2date := age_to_date;
  human2bytes := Builtin.int;
  date_lambda := to_date;
|}.

Definition post (fields : list (string * pyval)) : Post :=
  {| info := list_to_map fields |}.

Definition search := @search externals.
Definition _filter_post := @_filter_post externals.
Definition _meta_num_match := @_meta_num_match externals.
Definition _tag_present := @_tag_present externals.

End Sample.

(** ** Post enrichment (src/kana2/resources/info.py)

    [Info.enhance] adds derived keys to the info mapping of a post when the
    post is built; [post["info"][key]] then reads the enhanced mapping.  The
    client, the clock, [whratio] and the HTTP request are parameters; the
    two warnings the method logs are not modelled. *)

Class InfoEnv : Type := {
  (** [self.client.name], [self.client.site_url] *)
  client_name : pyval;
  client_site_url : pyval;
  (** [arrow.now().format("YYYY-MM-DDTHH:mm:ss.SSSZZ")] *)
  fetch_date_now : pyval;
  (** [whratio.as_int(w, h)], [whratio.as_float(w, h)] *)
  whratio_as_int : pyval → pyval → result pyval;
  whratio_as_float : pyval → pyval → result pyval;
  (** [self.client.http("head", url)]: [None] for a falsy response,
      otherwise what [response.headers["content-length"]] evaluates to. *)
  http_head_length : pyval → option (result pyval);
}.

Module Info.

(** [s.split()]: the words of [s] between runs of whitespace.  [cur] is the
    word being read. *)
Fixpoint split_ws_go (cur : string) (s : string) : list string :=
  match s with
  | EmptyString => if String.eqb cur "" then [] else [cur]
  | String c s' =>
      if PyStr.isspace c then
        if String.eqb cur "" then split_ws_go "" s'
        else cur :: split_ws_go "" s'
      else split_ws_go (cur +:+ String c EmptyString) s'
  end.

Definition split_ws (s : string) : list string := split_ws_go "" s.

(** [s * n] for a [str] and an [int]. *)
Definition repeat_str (s : string) (n : Z) : string :=
  Nat.iter (Z.to_nat n) (fun acc => s +:+ acc) EmptyString.

(** [a * b] *)
Definition mul (a b : pyval) : result pyval :=
  match Py.as_number a, Py.as_number b with
  | Some (Py.NInt x), Some (Py.NInt y) => Ok (VInt (x * y))
  | Some x, Some y =>
      do f <- Py.to_float x;
      do g <- Py.to_float y;
      Ok (VFloat (PrimFloat.mul f g))
  | Some (Py.NInt n), None =>
      match b with VStr s => Ok (VStr (repeat_str s n)) | _ => Raise TypeError end
  | None, Some (Py.NInt n) =>
      match a with VStr s => Ok (VStr (repeat_str s n)) | _ => Raise TypeError end
  | _, _ => Raise TypeError
  end.

(** [len(v.split())], with [AttributeError] for a value without [split] *)
Definition count_words (v : pyval) : result pyval :=
  match v with
  | VStr s => Ok (VInt (Z.of_nat (length (split_ws s))))
  | _ => Raise AttributeError
  end.

(** [v.split(".")[-1]] *)
Definition last_dot_piece (v : pyval) : result pyval :=
  match v with
  | VStr s => Ok (VStr (List.last (PyStr.split s ".") EmptyString))
  | _ => Raise AttributeError
  end.

Section WithEnv.
Context `{InfoEnv}.

(** The dictionary [new] that [enhance] builds from [self.info]. *)
Definition enhance_new (info : gmap string pyval)
    : result (gmap string pyval) :=
  let new : gmap string pyval := {["is_broken" := VBool false]} in
  let new := <["site" := client_name]> new in
  let new := <["site_url" := client_site_url]> new in
  let new := <["fetch_date" := fetch_date_now]> new in
  do children_num <-
    (do ids <- getitem info "children_ids";
     match count_words ids with
     | Raise AttributeError => Ok (VInt 0)
     | r => r
     end);
  let new := <["children_num" := children_num]> new in
  do w <- getitem info "image_width";
  do h <- getitem info "image_height";
  do area <- mul w h;
  do mpixels <- Py.truediv area (VInt 1000000);
  let new := <["mpixels" := mpixels]> new in
  do w <- getitem info "image_width";
  do h <- getitem info "image_height";
  do ratio_int <- whratio_as_int w h;
  let new := <["ratio_int" := ratio_int]> new in
  do ratio_float <- whratio_as_float w h;
  let new := <["ratio_float" := ratio_float]> new in
  match info !! "file_ext" with
  | None => Ok (<["is_broken" := VBool true]> new)
  | Some file_ext =>
      if negb (Py.eq file_ext (VStr "zip")) then
        let new := <["is_ugoira" := VBool false]> new in
        do file_url <- getitem info "file_url";
        let new := <["dl_url" := file_url]> new in
        let new := <["dl_ext" := file_ext]> new in
        do file_size <- getitem info "file_size";
        Ok (<["dl_size" := file_size]> new)
      else
        let new := <["is_ugoira" := VBool true]> new in
        do dl_url <- getitem info "large_file_url";
        let new := <["dl_url" := dl_url]> new in
        do dl_ext <- last_dot_piece dl_url;
        let new := <["dl_ext" := dl_ext]> new in
        match http_head_length dl_url with
        | Some length =>
            do length <- length;
            do dl_size <- Builtin.int length;
            Ok (<["dl_size" := dl_size]> new)
        | None => Ok (<["is_broken" := VBool true]> new)
        end
  end.

(** [enhance]: [self.info.update(new)]. *)
Definition enhance (info : gmap string pyval) : result (gmap string pyval) :=
  do new <- enhance_new info;
  Ok (new ∪ info).

(** The post that carries the enhanced info. *)
Definition post_of (info : gmap string pyval) : result Post :=
  do data <- enhance info;
  Ok (Build_Post data).

End WithEnv.

End Info.

(** ** A sample site

    A client, a clock and HTTP answers to run [enhance] on: the ratio of a
    post is its width over its height, reduced for the integer form, and
    every HEAD request is answered with a length of 2048 bytes. *)
Module SampleSite.

Definition env : InfoEnv := {|
  client_name := VStr "danbooru";
  client_site_url := VStr "https://danbooru.donmai.us";
  fetch_date_now := VStr "2018-10-20T12:00:00.000+00:00";
  whratio_as_int := fun w h =>
    match w, h with
    | VInt a, VInt b =>
        Ok (VStr (Builtin.str_of_Z (a / Z.gcd a b) +:+ ":"
                  +:+ Builtin.str_of_Z (b / Z.gcd a b)))
    | _, _ => Raise TypeError
    end;
  whratio_as_float := Py.truediv;
  http_head_length := fun _ => Some (Ok (VStr "2048"));
|}.

(** The raw info of an image post and of an animation. *)
Definition image : gmap string pyval :=
  list_to_map [
    ("id", VInt 1); ("tag_string", VStr "safe solo");
    ("children_ids", VStr "12 13"); ("parent_id", VNone);
    ("image_width", VInt 800); ("image_height", VInt 600);
    ("file_ext", VStr "png"); ("file_size", VInt 1234);
    ("file_url", VStr "https://danbooru.donmai.us/data/1.png")].

Definition ugoira : gmap string pyval :=
  list_to_map [
    ("id", VInt 2); ("tag_string", VStr "animated");
    ("children_ids", VNone);
    ("image_width", VInt 640); ("image_height", VInt 480);
    ("file_ext", VStr "zip"); ("file_size", VInt 99);
    ("file_url", VStr "https://danbooru.donmai.us/data/2.zip");
    ("large_file_url", VStr "https://danbooru.donmai.us/data/2.webm")].

Definition enhance := @Info.enhance env.
Definition post_of := @Info.post_of env.

(** The two posts as the site hands them out. *)
Definition enhanced (raw : gmap string pyval) : gmap string pyval :=
  match enhance raw with
  | Ok data => data
  | Raise _ => raw
  end.

Definition image_post : Post := Build_Post (enhanced image).
Definition ugoira_post : Post := Build_Post (enhanced ugoira).

End SampleSite.

(** ** The command line (src/lunakit/cli.py)

    [unesc] of [main]: a query or a filter that starts with an escaped dash
    loses the escape character, so that it can be told from an option. *)
Module Cli.

Definition unesc (s : string) : string :=
  if PyStr.startswith s "\-" || PyStr.startswith s "%-" then PyStr.drop 1 s
  else s.

End Cli.

(** * Vocabulary of the properties *)

(** A string without the character [c]. *)
Definition lacks (c : ascii) (s : string) : Prop :=
  PyStr.char_in c s = false.

(** The tags of a post, each followed by a space. *)
Fixpoint spaced (tags : list string) : string :=
  match tags with
  | [] => ""
  | t :: ts => t +:+ " " +:+ spaced ts
  end.

(** A tag as the posts carry them: not empty and free of whitespace. *)
Definition well_formed_tag (t : string) : Prop :=
  t ≠ "" ∧ PyStr.whitespace_free t = true.

(** A string made of characters of [chars] only. *)
Definition only_chars (s chars : string) : bool :=
  forallb (fun c => PyStr.char_in c chars) (list_ascii_of_string s).

(** [s[-1]], if any. *)
Fixpoint last_char (s : string) : option ascii :=
  match s with
  | EmptyString => None
  | String c EmptyString => Some c
  | String _ s' => last_char s'
  end.

(** A name free of colons that ends with no modifier, as all the names of
    the two tables are. *)
Definition plain_name (k : string) : bool :=
  negb (PyStr.char_in ":" k)
  && match last_char k with
     | Some c => negb (PyStr.char_in c "~-")
     | None => true
     end.

(** A name that [META_STR_TAGS_FUNCS] maps to [None]. *)
Definition reserved_name (name : string) : Prop :=
  table_get META_STR_TAGS_FUNCS name = Ok None.

(** The syntaxes [compare] tries before lists and plain values. *)
Definition special_syntax (value : string) : bool :=
  String.eqb value "none" || String.eqb value "any"
  || PyStr.startswith value ">=" || PyStr.endswith value ".."
  || PyStr.startswith value "<=" || PyStr.startswith value ".."
  || PyStr.startswith value ">" || PyStr.startswith value "<"
  || PyStr.contains ".." value.

(** A value that reaches the list case of [compare]. *)
Definition comma_list_value (value : string) : bool :=
  negb (special_syntax value) && PyStr.contains "," value.

(** A value that reaches the final case of [compare]. *)
Definition plain_value (value : string) : bool :=
  negb (special_syntax value) && negb (PyStr.contains "," value).

(** A value that reaches the range case of [compare]. *)
Definition range_value (value : string) : bool :=
  negb (String.eqb value "none" || String.eqb value "any"
        || PyStr.startswith value ">=" || PyStr.endswith value ".."
        || PyStr.startswith value "<=" || PyStr.startswith value ".."
        || PyStr.startswith value ">" || PyStr.startswith value "<")
  && PyStr.contains ".." value.

(** The key of the info mapping that the predicate of a string metatag
    reads, if it reads one: [status] reads none for [any] and [all], and the
    reserved names have no predicate. *)
Definition str_field (name value : string) : option string :=
  if String.eqb name "md5" then Some "md5"
  else if String.eqb name "filetype" then Some "file_ext"
  else if String.eqb name "dltype" then Some "dl_ext"
  else if String.eqb name "rating" then Some "rating"
  else if String.eqb name "locked" then Some ("is_" +:+ value +:+ "_locked")
  else if String.eqb name "status" then
    if String.eqb value "any" || String.eqb value "all" then None
    else Some ("is_" +:+ value)
  else None.

(** The key a term [name:value] reads, for both kinds of metatag. *)
Definition term_field (name value : string) : option string :=
  match table_get META_NUM_TAGS name with
  | Ok e => Some (field e)
  | Raise _ => str_field name value
  end.

(** A tag that does not start with the OR marker. *)
Definition unmarked_tag (t : string) : Prop :=
  PyStr.startswith t "~" = false.

(** One of the three loops of [_filter_post], for a term evaluator [f]. *)
Fixpoint eval_loop (f : string → result pyval) (terms : list string)
    (presences : dict pyval) : result (dict pyval) :=
  match terms with
  | [] => Ok presences
  | t :: rest =>
      do present <- f t;
      eval_loop f rest (dict_set presences t present)
  end.

(** The value of a term that evaluates. *)
Definition term_value (f : string → result pyval) (t : string) : pyval :=
  match f t with
  | Ok v => v
  | Raise _ => VNone
  end.

(** The decision of [_filter_post], if it returns one. *)
Definition decision (r : result filter_result) : option bool :=
  match r with
  | Ok (Decision b) => Some b
  | _ => None
  end.

(** A term marked for the OR group. *)
Definition or_marked (term : string) : bool := PyStr.startswith term "~".

(** A term marked as negated. *)
Definition negated (term : string) : bool := PyStr.startswith term "-".

(** What the decision loop asks of one entry of the presence map: nothing of
    an OR term, presence of an unmarked term; a negated term fails it
    whether present or not. *)
Definition entry_passes (it : string * pyval) : bool :=
  if or_marked it.1 then true
  else if negated it.1 then false
  else Py.truthy it.2.

(** The test after the loop: no OR term at all, or one that is present. *)
Definition or_group_passes (items : dict pyval) : bool :=
  negb (existsb (fun it => or_marked it.1) items)
  || existsb (fun it => or_marked it.1 && Py.truthy it.2) items.

(** A term with which the decision loop cannot end well: [term[0]] raises for
    the empty term and a negated term is rejected. *)
Definition hopeless (term : string) : bool :=
  String.eqb term "" || negated term.

(** Whether [_filter_post] accepts a post. *)
Definition accepted `{Externals} (tags meta_num meta_str : gset string)
    (post : Post) : bool :=
  match _filter_post post tags meta_num meta_str false with
  | Ok (Decision true) => true
  | _ => false
  end.


(** A non-empty string of decimal digits. *)
Definition is_digits (s : string) : bool :=
  negb (String.eqb s "") && only_chars s "0123456789".

(** [_meta_num_match] up to the call of [compare]. *)
Definition with_compare `{Externals} (post : Post) (tag : string)
    (k : num_entry → pyval → result bool) : result bool :=
  do e <- table_get META_NUM_TAGS tag;
  do raw <- getitem (info post) (field e);
  do info_v <- apply_converter (convert e) raw;
  do result <- k e info_v;
  Ok (if negb (entry_contains "reverse_cmp" e) then result else negb result).

(** The keys [enhance] writes. *)
Definition enhanced_keys : list string :=
  ["is_broken"; "site"; "site_url"; "fetch_date"; "children_num"; "mpixels";
   "ratio_int"; "ratio_float"; "is_ugoira"; "dl_url"; "dl_ext"; "dl_size"].

(** The keys [enhance] reads. *)
Definition enhance_inputs : list string :=
  ["children_ids"; "image_width"; "image_height"; "file_ext"; "file_url";
   "file_size"; "large_file_url"].

(** The number of children [enhance] counts in a [children_ids] value. *)
Definition children_count (ids : pyval) : Z :=
  match ids with
  | VStr s => Z.of_nat (length (Info.split_ws s))
  | _ => 0
  end.

(** A post [enhance] marks as broken: it has no media information, or it is
    an animation whose HEAD request gets no usable response. *)
Definition broken `{InfoEnv} (info : gmap string pyval) : bool :=
  match info !! "file_ext" with
  | None => true
  | Some ext =>
      Py.eq ext (VStr "zip")
      && match info !! "large_file_url" with
         | Some url =>
             match http_head_length url with
             | None => true
             | Some _ => false
             end
         | None => false
         end
  end.

(** The keys every enhanced post has. *)
Definition always_enhanced : list string :=
  ["is_broken"; "site"; "site_url"; "fetch_date"; "children_num"; "mpixels";
   "ratio_int"; "ratio_float"].

(** A word [shlex.split] reads as it stands: not empty, and free of
    whitespace, quotes and backslashes. *)
Definition shlex_word (w : string) : bool :=
  negb (String.eqb w "")
  && forallb (fun c => negb (PyStr.char_in c Shlex.whitespace)
                       && negb (PyStr.char_in c Shlex.quotes)
                       && negb (PyStr.char_in c Shlex.escape))
       (list_ascii_of_string w).

(** A term of a query that asks for a tag: a word that carries no marker
    and whose name is in neither metatag table. *)
Definition tag_term (w : string) : bool :=
  shlex_word w && negb (or_marked w) && negb (negated w)
  && negb (table_has META_NUM_TAGS (term_name w))
  && negb (table_has META_STR_TAGS_FUNCS (term_name w)).

(** A post with its tags. *)
Definition tagged (tags : Post → list string) (p : Post) : Prop :=
  info p !! "tag_string" = Some (VStr (PyStr.join " " (tags p)))
  ∧ Forall well_formed_tag (tags p).

(** The tags of a post: the pieces of its tag string between spaces. *)
Definition tag_list (p : Post) : list string :=
  match info p !! "tag_string" with
  | Some (VStr s) => PyStr.split s " "
  | _ => []
  end.

(** Whether a post has every tag of a list. *)
Definition has_tags (tags : Post → list string) (ws : list string)
    (p : Post) : bool :=
  forallb (fun w => bool_decide (w ∈ tags p)) ws.

(** * Properties *)

Set Warnings "-clear-no-such-hyp".

(** ** The definitions on examples *)

Example split_examples :
  PyStr.split "a,,b" "," = ["a"; ""; "b"]
  ∧ PyStr.split "" "," = [""]
  ∧ PyStr.split "1....2" ".." = ["1"; ""; "2"]
  ∧ PyStr.split_max "1..2..3" ".." 1 = ["1"; "2..3"]
  ∧ PyStr.split_max "ratio:16:9" ":" 1 = ["ratio"; "16:9"]
  ∧ PyStr.split "ratio:16:9" ":" = ["ratio"; "16"; "9"]
  ∧ PyStr.rstrip "width~-" "~-" = "width"
  ∧ PyStr.drop_end 2 "10.." = "10"
  ∧ PyStr.endswith "10.." ".." = true
  ∧ PyStr.contains " cat " " cats dog " = false.
Proof. repeat split; reflexivity. Qed.

Example builtin_examples :
  Builtin.str_of_Z 0 = "0"
  ∧ Builtin.str_of_Z 1920 = "1920"
  ∧ Builtin.str_of_Z (-7) = "-7"
  ∧ Builtin.str_of_Z 1000000 = "1000000"
  ∧ Builtin.int (VStr "007") = Ok (VInt 7)
  ∧ Builtin.int (VStr " -1_000 ") = Ok (VInt (-1000))
  ∧ is_ok (Builtin.int (VStr "1__0")) = false
  ∧ is_ok (Builtin.int (VStr "12 3")) = false
  ∧ is_ok (Builtin.int (VStr "")) = false
  ∧ is_ok (Builtin.int (VStr "1.5")) = false
  ∧ Builtin.int (VFloat (-3.5)%float) = Ok (VInt (-3))
  ∧ Py.truediv (VInt 1000000) (VInt 20) = Ok (VFloat 50000%float)
  ∧ Py.sub (VInt 1000000) (VFloat 50000%float) = Ok (VFloat 950000%float)
  ∧ Py.le (VFloat 950000%float) (VInt 950000) = Ok true
  ∧ Py.le (VFloat 950000.5%float) (VInt 950000) = Ok false
  ∧ Py.le (VInt 9007199254740993) (VFloat 9007199254740992%float) = Ok false.
Proof. repeat split; vm_compute; reflexivity. Qed.

Example shlex_examples :
  Shlex.split "-explicit safe" = Ok ["-explicit"; "safe"]
  ∧ Shlex.split "~foo ~bar  baz " = Ok ["~foo"; "~bar"; "baz"]
  ∧ Shlex.split "a 'b c' d\ e" = Ok ["a"; "b c"; "d e"]
  ∧ Shlex.split "'' x" = Ok [""; "x"]
  ∧ Shlex.split "" = Ok []
  ∧ Shlex.split "ab'cd'ef" = Ok ["abcdef"]
  ∧ is_ok (Shlex.split "it's") = false
  ∧ is_ok (Shlex.split "a\") = false.
Proof. repeat split; reflexivity. Qed.

Example search_end_to_end :
  let p1 := Sample.post [("tag_string", VStr "cat fluffy"); ("score", VInt 10)] in
  let p2 := Sample.post [("tag_string", VStr "cat big"); ("score", VInt 100)] in
  Sample.search [p1; p2] "cat score:>=50" false = ([YPost p2], None).
Proof. vm_compute. reflexivity. Qed.

(** ** Strings *)

Section StringFacts.

Lemma str_app_cons (c : ascii) (s t : string) :
  String c s +:+ t = String c (s +:+ t).
Proof. reflexivity. Qed.

Lemma str_app_nil_l (t : string) : "" +:+ t = t.
Proof. reflexivity. Qed.

Lemma str_app_assoc (s t u : string) : (s +:+ t) +:+ u = s +:+ t +:+ u.
Proof. induction s as [|c s IH]; [done|]. by rewrite !str_app_cons, IH. Qed.

Lemma prefix_nil (s : string) : String.prefix "" s = true.
Proof. by destruct s. Qed.

Lemma prefix_cons (a b : ascii) (s t : string) :
  String.prefix (String a s) (String b t)
  = bool_decide (a = b) && String.prefix s t.
Proof.
  simpl. destruct (ascii_dec a b) as [->|Hne].
  - by rewrite bool_decide_eq_true_2.
  - by rewrite bool_decide_eq_false_2.
Qed.

Lemma lacks_cons (c d : ascii) (s : string) :
  lacks c (String d s) ↔ c ≠ d ∧ lacks c s.
Proof.
  unfold lacks, PyStr.char_in.
  cbn [list_ascii_of_string existsb]. rewrite orb_false_iff.
  by rewrite Ascii.eqb_neq.
Qed.

Lemma lacks_app (c : ascii) (s t : string) :
  lacks c (s +:+ t) ↔ lacks c s ∧ lacks c t.
Proof.
  induction s as [|d s IH].
  - rewrite str_app_nil_l. unfold lacks at 2. tauto.
  - rewrite str_app_cons, !lacks_cons, IH. tauto.
Qed.

Lemma whitespace_free_lacks_space (s : string) :
  PyStr.whitespace_free s = true → lacks " " s.
Proof.
  unfold PyStr.whitespace_free, lacks, PyStr.char_in.
  induction s as [|c s IH]; [done|].
  cbn [list_ascii_of_string forallb existsb].
  intros [Hc Hs]%andb_true_iff. rewrite (IH Hs), orb_false_r.
  destruct (Ascii.eqb_spec " " c) as [<-|]; done.
Qed.

(** *** [needle in hay] across a token boundary *)

Lemma prefix_token (T t rest : string) :
  lacks " " T → lacks " " t →
  String.prefix (T +:+ " ") (t +:+ " " +:+ rest) = bool_decide (T = t).
Proof.
  revert t. induction T as [|c T IH]; intros [|d t].
  - intros _ _. rewrite bool_decide_eq_true_2 by done.
    rewrite !str_app_nil_l. change (" " +:+ rest) with (String " " rest).
    change (" " : string) with (String " " "").
    by rewrite prefix_cons, prefix_nil.
  - intros _ [Hd _]%lacks_cons. rewrite str_app_nil_l, str_app_cons.
    change (" " : string) with (String " " "").
    rewrite prefix_cons, bool_decide_eq_false_2; done.
  - intros [Hc _]%lacks_cons _. rewrite str_app_nil_l, str_app_cons.
    change (" " +:+ rest) with (String " " rest).
    rewrite prefix_cons, bool_decide_eq_false_2; [done|congruence].
  - intros [_ HT]%lacks_cons [_ Ht]%lacks_cons.
    rewrite !str_app_cons, prefix_cons, IH by done.
    destruct (decide (c = d)) as [->|Hne].
    + rewrite bool_decide_eq_true_2 by done. simpl.
      apply bool_decide_ext. split; [by intros ->|congruence].
    + rewrite (bool_decide_eq_false_2 (c = d)) by done. simpl.
      rewrite bool_decide_eq_false_2; [done|congruence].
Qed.

(** A needle that starts with a space cannot start inside a token. *)
Lemma contains_skip_token (n t rest : string) :
  lacks " " t →
  PyStr.contains (String " " n) (t +:+ rest)
  = PyStr.contains (String " " n) rest.
Proof.
  induction t as [|c t IH]; [done|].
  intros [Hc Ht]%lacks_cons. rewrite str_app_cons.
  cbn [PyStr.contains]. rewrite prefix_cons.
  rewrite bool_decide_eq_false_2 by done. simpl. by apply IH.
Qed.

End StringFacts.

Section TagPresence.
Context `{Externals}.

Lemma join_spaced (t : string) (ts : list string) :
  PyStr.join " " (t :: ts) +:+ " " = spaced (t :: ts).
Proof.
  revert t. induction ts as [|u ts IH]; intros t; [done|].
  change (PyStr.join " " (t :: u :: ts))
    with (t +:+ " " +:+ PyStr.join " " (u :: ts)).
  by rewrite !str_app_assoc, IH.
Qed.

Lemma contains_spaced (T : string) (tags : list string) :
  T ≠ "" → lacks " " T → Forall (lacks " ") tags →
  PyStr.contains (String " " (T +:+ " ")) (String " " (spaced tags))
  = bool_decide (T ∈ tags).
Proof.
  intros HT HTs. induction 1 as [|t ts Ht Hts IH].
  - rewrite bool_decide_eq_false_2 by apply not_elem_of_nil.
    destruct T as [|c T]; [done|]. cbn [spaced PyStr.contains].
    by rewrite prefix_cons, str_app_cons.
  - cbn [spaced PyStr.contains].
    rewrite prefix_cons, bool_decide_eq_true_2 by done.
    rewrite prefix_token by done.
    change (" " +:+ spaced ts) with (String " " (spaced ts)).
    rewrite contains_skip_token by done. rewrite IH.
    cbn [andb]. destruct (decide (T = t)) as [->|Hne].
    + rewrite (bool_decide_eq_true_2 (t = t)) by done.
      rewrite (bool_decide_eq_true_2 (t ∈ t :: ts)); [done|].
      apply list_elem_of_here.
    + rewrite (bool_decide_eq_false_2 (T = t)) by done. cbn [orb].
      apply bool_decide_ext. rewrite elem_of_cons. intuition.
Qed.

Lemma tag_present_join (post : Post) (tags : list string) (T : string) :
  info post !! "tag_string" = Some (VStr (PyStr.join " " tags)) →
  Forall (lacks " ") tags → T ≠ "" → lacks " " T →
  _tag_present post T = Ok (bool_decide (T ∈ tags)).
Proof.
  intros Hinfo Htags HT HTs. unfold _tag_present, getitem.
  rewrite Hinfo. cbn [bind Builtin.str]. f_equal.
  change (" " +:+ T +:+ " ") with (String " " (T +:+ " ")).
  destruct tags as [|t ts].
  - rewrite bool_decide_eq_false_2 by apply not_elem_of_nil.
    destruct T as [|c T]; [done|]. apply lacks_cons in HTs as [Hc _].
    change (" " +:+ PyStr.join " " [] +:+ " ")
      with (String " " (String " " "")).
    cbn [PyStr.contains]. rewrite str_app_cons, !prefix_cons.
    rewrite (bool_decide_eq_false_2 (c = " "%char)) by congruence.
    by rewrite andb_false_r.
  - change (" " +:+ PyStr.join " " (t :: ts) +:+ " ")
      with (String " " (PyStr.join " " (t :: ts) +:+ " ")).
    rewrite join_spaced. by apply contains_spaced.
Qed.

End TagPresence.

(** ** Plain tags *)

(** C7: on a post whose tag string is a sequence of non-empty,
    whitespace-free tags joined by single spaces, a non-empty,
    whitespace-free plain-tag term [T] evaluates to true exactly when [T] is
    one of the tags, and to false otherwise; it never raises. *)
Theorem tag_present_whole_token `{Externals} (post : Post)
    (tags : list string) (T : string) :
  info post !! "tag_string" = Some (VStr (PyStr.join " " tags)) →
  Forall well_formed_tag tags →
  well_formed_tag T →
  _tag_present post T = Ok (bool_decide (T ∈ tags)).
Proof.
  intros Hinfo Htags [HT HTw].
  apply tag_present_join; [done| |done|by apply whitespace_free_lacks_space].
  eapply Forall_impl; [exact Htags|].
  intros t [_ Ht]. by apply whitespace_free_lacks_space.
Qed.

(** The tag [cats] does not satisfy the term [cat]. *)
Lemma tag_present_whole_token_witness :
  let post := Sample.post [("tag_string", VStr "cats")] in
  info post !! "tag_string" = Some (VStr (PyStr.join " " ["cats"]))
  ∧ Forall well_formed_tag ["cats"]
  ∧ well_formed_tag "cat"
  ∧ Sample._tag_present post "cat" = Ok false.
Proof.
  assert (Htags : Forall well_formed_tag ["cats"])
    by (repeat constructor; done).
  assert (HT : well_formed_tag "cat") by (split; done).
  split; [done|]. split; [exact Htags|]. split; [exact HT|].
  exact (tag_present_whole_token
           (Sample.post [("tag_string", VStr "cats")]) ["cats"] "cat"
           eq_refl Htags HT).
Defined.

(** ** The classifier *)

Lemma table_has_keys {A} (d : list (string * A)) (key : string) :
  table_has d key = true ↔ key ∈ d.*1.
Proof.
  unfold table_has. induction d as [|[k a] d IH]; cbn [existsb fmap list_fmap].
  - split; [done|]. by intros ?%elem_of_nil.
  - rewrite orb_true_iff, IH, elem_of_cons. cbn [fst].
    rewrite String.eqb_eq. intuition congruence.
Qed.

Lemma num_keys_not_str_keys (name : string) :
  table_has META_NUM_TAGS name = true →
  table_has META_STR_TAGS_FUNCS name = false.
Proof.
  intros Hnum%table_has_keys.
  cbn in Hnum. 
  repeat (apply elem_of_cons in Hnum as [->|Hnum]; [reflexivity|]).
  by apply elem_of_nil in Hnum.
Qed.

Lemma classify_terms_partition (terms tags meta_num meta_str : gset string) :
  classify_terms terms = (tags, meta_num, meta_str) →
  tags ## meta_num ∧ tags ## meta_str ∧ meta_num ## meta_str
  ∧ tags ∪ meta_num ∪ meta_str = terms.
Proof.
  unfold classify_terms.
  intros [[<- <-]%pair_equal_spec <-]%pair_equal_spec.
  repeat split.
  - intros t. rewrite !elem_of_difference. tauto.
  - intros t. rewrite !elem_of_difference. tauto.
  - intros t. rewrite !elem_of_filter.
    intros [Hnum _] [Hstr _]. apply num_keys_not_str_keys in Hnum.
    congruence.
  - apply set_eq. intros t.
    rewrite !elem_of_union, !elem_of_difference, !elem_of_filter.
    destruct (table_has META_NUM_TAGS (term_name t));
      destruct (table_has META_STR_TAGS_FUNCS (term_name t));
      intuition congruence.
Qed.

(** C8: for every query the tokenizer accepts, the three sets the classifier
    returns are pairwise disjoint and their union is the set of the
    query's tokens. *)
Theorem classify_partition (terms : string)
    (tags meta_num meta_str : gset string) :
  classify terms = Ok (tags, meta_num, meta_str) →
  ∃ tokens,
    Shlex.split terms = Ok tokens
    ∧ tags ## meta_num ∧ tags ## meta_str ∧ meta_num ## meta_str
    ∧ tags ∪ meta_num ∪ meta_str = list_to_set tokens.
Proof.
  unfold classify. destruct (Shlex.split terms) as [tokens|e]; [|done].
  cbn [bind]. intros Heq. exists tokens. split; [done|].
  apply classify_terms_partition. congruence.
Qed.

(** The partition on the query [cat score:>=50 md5:x]. *)
Lemma classify_partition_witness :
  let tags : gset string := {["cat"]} in
  let meta_num : gset string := {["score:>=50"]} in
  let meta_str : gset string := {["md5:x"]} in
  classify "cat score:>=50 md5:x" = Ok (tags, meta_num, meta_str)
  ∧ ∃ tokens,
      Shlex.split "cat score:>=50 md5:x" = Ok tokens
      ∧ tags ## meta_num ∧ tags ## meta_str ∧ meta_num ## meta_str
      ∧ tags ∪ meta_num ∪ meta_str = list_to_set tokens.
Proof.
  assert (Hc : classify "cat score:>=50 md5:x"
               = Ok ({["cat"]}, {["score:>=50"]}, {["md5:x"]}))
    by (vm_compute; reflexivity).
  split; [exact Hc|]. exact (classify_partition _ _ _ _ Hc).
Defined.

(** ** Splitting a term at its first colon *)

Lemma split_budget_spent (sep s : string) :
  PyStr.split_go sep (Some 0%nat) 0 s = [s].
Proof.
  induction s as [|c s IH]; [done|].
  cbn [PyStr.split_go]. destruct (String.prefix sep (String c s)); [done|].
  by rewrite IH.
Qed.

Lemma split_first_colon (a v : string) :
  lacks ":" a →
  PyStr.split (a +:+ ":" +:+ v) ":" = a :: PyStr.split v ":".
Proof.
  unfold PyStr.split. induction a as [|c a IH].
  - intros _. rewrite str_app_nil_l. change (":" +:+ v) with (String ":" v).
    cbn [PyStr.split_go]. change (":" : string) with (String ":" "").
    by rewrite prefix_cons, prefix_nil.
  - intros [Hc Ha]%lacks_cons. rewrite str_app_cons. cbn [PyStr.split_go].
    change (":" : string) with (String ":" "").
    rewrite prefix_cons, bool_decide_eq_false_2 by done.
    cbn [andb]. by rewrite IH.
Qed.

Lemma split_max_first_colon (a v : string) :
  lacks ":" a →
  PyStr.split_max (a +:+ ":" +:+ v) ":" 1 = [a; v].
Proof.
  unfold PyStr.split_max. induction a as [|c a IH].
  - intros _. rewrite str_app_nil_l. change (":" +:+ v) with (String ":" v).
    cbn [PyStr.split_go]. change (":" : string) with (String ":" "").
    rewrite prefix_cons, prefix_nil. cbn.
    by rewrite split_budget_spent.
  - intros [Hc Ha]%lacks_cons. rewrite str_app_cons. cbn [PyStr.split_go].
    change (":" : string) with (String ":" "").
    rewrite prefix_cons, bool_decide_eq_false_2 by done.
    cbn [andb]. by rewrite IH.
Qed.

Lemma term_name_colon (a v : string) :
  lacks ":" a → term_name (a +:+ ":" +:+ v) = a.
Proof. intros Ha. unfold term_name. by rewrite split_first_colon. Qed.

Lemma unpack_term_colon (a v : string) :
  lacks ":" a → unpack_term (a +:+ ":" +:+ v) = Ok (a, v).
Proof. intros Ha. unfold unpack_term. by rewrite split_max_first_colon. Qed.

(** ** Keys of the tables *)

Lemma last_char_app (a m : string) :
  m ≠ "" → last_char (a +:+ m) = last_char m.
Proof.
  intros Hm. induction a as [|c a IH]; [done|].
  rewrite str_app_cons. cbn [last_char]. rewrite IH.
  destruct (a +:+ m) eqn:E; [|done].
  destruct a; [|done]. by rewrite str_app_nil_l in E.
Qed.

Lemma last_char_only (m chars : string) :
  m ≠ "" → only_chars m chars = true →
  ∃ c, last_char m = Some c ∧ PyStr.char_in c chars = true.
Proof.
  unfold only_chars. induction m as [|c m IH]; [done|]. intros _.
  cbn [list_ascii_of_string forallb]. intros [Hc Hm]%andb_true_iff.
  destruct m as [|d m]; [by exists c|].
  destruct IH as (x & Hx & Hin); [done..|]. by exists x.
Qed.

Lemma only_chars_lacks (m chars : string) (c : ascii) :
  only_chars m chars = true → PyStr.char_in c chars = false → lacks c m.
Proof.
  unfold only_chars, lacks. induction m as [|d m IH]; [done|].
  cbn [list_ascii_of_string forallb]. intros [Hd Hm]%andb_true_iff Hc.
  apply lacks_cons. split; [|by apply IH]. intros <-. congruence.
Qed.

Lemma num_keys_plain (name : string) :
  table_has META_NUM_TAGS name = true → plain_name name = true.
Proof.
  intros Hnum%table_has_keys. cbn in Hnum.
  repeat (apply elem_of_cons in Hnum as [->|Hnum]; [reflexivity|]).
  by apply elem_of_nil in Hnum.
Qed.

Lemma str_keys_plain (name : string) :
  table_has META_STR_TAGS_FUNCS name = true → plain_name name = true.
Proof.
  intros Hstr%table_has_keys. cbn in Hstr.
  repeat (apply elem_of_cons in Hstr as [->|Hstr]; [reflexivity|]).
  by apply elem_of_nil in Hstr.
Qed.

Lemma modified_name_not_plain (name mods : string) :
  mods ≠ "" → only_chars mods "~-" = true →
  plain_name (name +:+ mods) = false.
Proof.
  intros Hne Hm. unfold plain_name. rewrite last_char_app by done.
  destruct (last_char_only mods "~-") as (c & -> & Hc); [done..|].
  rewrite Hc. apply andb_false_r.
Qed.

(** C4 (what the code does): a token [name+mods:value], with [name] a key of
    the numeric table and [mods] a non-empty string of [~] and [-], is
    classified as a plain tag and not as a numeric-metatag term: the
    classifier looks [name+mods] up as it stands, and no key ends with a
    modifier. *)
Theorem trailing_modifier_term_is_plain_tag (terms : gset string)
    (name mods value : string) :
  table_has META_NUM_TAGS name = true →
  mods ≠ "" → only_chars mods "~-" = true →
  name +:+ mods +:+ ":" +:+ value ∈ terms →
  name +:+ mods +:+ ":" +:+ value ∈ (classify_terms terms).1.1
  ∧ name +:+ mods +:+ ":" +:+ value ∉ (classify_terms terms).1.2.
Proof.
  intros Hname Hne Hmods Hin.
  assert (Hplain := modified_name_not_plain name mods Hne Hmods).
  assert (Hterm : term_name (name +:+ mods +:+ ":" +:+ value) = name +:+ mods).
  { rewrite <- str_app_assoc. apply term_name_colon, lacks_app. split.
    - apply num_keys_plain, andb_true_iff in Hname as [Hc _].
      by apply negb_true_iff in Hc.
    - by apply (only_chars_lacks _ "~-"). }
  assert (Hnum : table_has META_NUM_TAGS (name +:+ mods) = false).
  { destruct (table_has META_NUM_TAGS (name +:+ mods)) eqn:E; [|done].
    apply num_keys_plain in E. congruence. }
  assert (Hstr : table_has META_STR_TAGS_FUNCS (name +:+ mods) = false).
  { destruct (table_has META_STR_TAGS_FUNCS (name +:+ mods)) eqn:E; [|done].
    apply str_keys_plain in E. congruence. }
  unfold classify_terms. cbn [fst snd].
  rewrite !elem_of_difference, !elem_of_filter, Hterm, Hnum, Hstr.
  intuition congruence.
Qed.

(** The token [width-:100] is a plain tag. *)
Lemma trailing_modifier_term_is_plain_tag_witness :
  table_has META_NUM_TAGS "width" = true
  ∧ ("-" : string) ≠ "" ∧ only_chars "-" "~-" = true
  ∧ ("width-:100" : string) ∈ ({["width-:100"]} : gset string)
  ∧ classify "width-:100" = Ok ({["width-:100"]}, ∅, ∅)
  ∧ ("width-:100" : string) ∈ (classify_terms {["width-:100"]}).1.1
  ∧ ("width-:100" : string) ∉ (classify_terms {["width-:100"]}).1.2.
Proof.
  assert (Hin : ("width-:100" : string) ∈ ({["width-:100"]} : gset string))
    by (by apply elem_of_singleton).
  assert (Hne : ("-" : string) ≠ "") by done.
  split; [reflexivity|]. split; [exact Hne|]. split; [reflexivity|].
  split; [exact Hin|]. split; [vm_compute; reflexivity|].
  exact (trailing_modifier_term_is_plain_tag
           {["width-:100"]} "width" "-" "100" eq_refl Hne eq_refl Hin).
Defined.

(** ** String metatags *)

Lemma reserved_names (name : string) :
  reserved_name name → name = "source" ∨ name = "order".
Proof.
  unfold reserved_name, META_STR_TAGS_FUNCS. cbn [table_get].
  repeat match goal with
    | |- context [String.eqb ?k name] =>
        destruct (String.eqb_spec k name) as [<-|_]; [intros [=]; auto|]
    end.
  done.
Qed.

(** C5 (amended): for every post, a term [name:value] whose name the table
    maps to [None] ([source], [order]) raises [TypeError] when it is
    evaluated: the [None] entry is called. *)
Theorem reserved_term_raises (post : Post) (name value : string) :
  reserved_name name →
  meta_str_term post (name +:+ ":" +:+ value) = Raise TypeError.
Proof.
  intros Hname. unfold meta_str_term.
  rewrite unpack_term_colon.
  - cbn [bind fst snd]. by rewrite Hname.
  - by destruct (reserved_names name Hname) as [-> | ->].
Qed.

(** The term [order:score] raises. *)
Lemma reserved_term_raises_witness :
  reserved_name "order"
  ∧ meta_str_term (Sample.post [("tag_string", VStr "cat")]) "order:score"
    = Raise TypeError.
Proof.
  split; [reflexivity|].
  exact (reserved_term_raises
           (Sample.post [("tag_string", VStr "cat")]) "order" "score" eq_refl).
Defined.

(** C5, as stated, fails on the term [order:score]: its evaluation raises
    and so returns no falsy value. *)
Lemma reserved_term_counterexample :
  let post := Sample.post [("tag_string", VStr "cat")] in
  reserved_name "order"
  ∧ meta_str_term post "order:score" = Raise TypeError
  ∧ ¬ ∃ v, meta_str_term post "order:score" = Ok v ∧ Py.truthy v = false.
Proof.
  split; [reflexivity|]. split; [reflexivity|].
  intros (v & Hv & _). vm_compute in Hv. discriminate Hv.
Qed.

(** ** Numeric metatags *)

Section NumericFacts.
Context `{Externals}.

Lemma not_special (value : string) :
  special_syntax value = false →
  String.eqb value "none" = false ∧ String.eqb value "any" = false
  ∧ PyStr.startswith value ">=" = false ∧ PyStr.endswith value ".." = false
  ∧ PyStr.startswith value "<=" = false ∧ PyStr.startswith value ".." = false
  ∧ PyStr.startswith value ">" = false ∧ PyStr.startswith value "<" = false
  ∧ PyStr.contains ".." value = false.
Proof.
  unfold special_syntax. rewrite !orb_false_iff. tauto.
Qed.

Lemma existsb_eqb_elem (s : string) (l : list string) :
  existsb (String.eqb s) l = bool_decide (s ∈ l).
Proof.
  induction l as [|x l IH]; cbn [existsb].
  - by rewrite bool_decide_eq_false_2 by apply not_elem_of_nil.
  - rewrite IH. destruct (String.eqb_spec s x) as [->|Hne]; cbn [orb].
    + by rewrite bool_decide_eq_true_2 by apply list_elem_of_here.
    + apply bool_decide_ext. rewrite elem_of_cons. intuition.
Qed.

Lemma compare_comma_list (tag : string) (conv : pyval → result pyval)
    (info_v : pyval) (value : string) (fuzzy reverse : bool) :
  comma_list_value value = true →
  compare tag conv info_v value fuzzy reverse
  = Ok (bool_decide (Builtin.str info_v ∈ PyStr.split value ",")).
Proof.
  intros [Hs Hc]%andb_true_iff. apply negb_true_iff, not_special in Hs.
  destruct Hs as (H1 & H2 & H3 & H4 & H5 & H6 & H7 & H8 & H9).
  unfold compare. rewrite H1, H2, H3, H4, H5, H6, H7, H8, H9, Hc.
  cbn [orb]. by rewrite existsb_eqb_elem.
Qed.

Lemma meta_num_match_unfold (post : Post) (tag value : string)
    (e : num_entry) (raw info_v : pyval) :
  table_get META_NUM_TAGS tag = Ok e →
  info post !! field e = Some raw →
  apply_converter (convert e) raw = Ok info_v →
  _meta_num_match post tag value
  = do result <- compare tag (apply_converter (convert e)) info_v value
                   (entry_contains "eq_fuzzy_20" e)
                   (entry_contains "reverse_cmp" e);
    Ok (if negb (entry_contains "reverse_cmp" e) then result else negb result).
Proof.
  intros He Hraw Hv. unfold _meta_num_match, getitem.
  rewrite He. cbn [bind]. rewrite Hraw. cbn [bind]. by rewrite Hv.
Qed.

End NumericFacts.

(** C6 (amended): a term whose value reaches the list case is true exactly
    when the converted field value, stringified, is an element of the
    comma-split list; for a metatag with the reverse-comparison flag the
    result is the negation of that test. *)
Theorem comma_list_uses_converted_value `{Externals} (post : Post)
    (tag value : string) (e : num_entry) (raw info_v : pyval) :
  table_get META_NUM_TAGS tag = Ok e →
  info post !! field e = Some raw →
  apply_converter (convert e) raw = Ok info_v →
  comma_list_value value = true →
  _meta_num_match post tag value
  = Ok (xorb (entry_contains "reverse_cmp" e)
             (bool_decide (Builtin.str info_v ∈ PyStr.split value ","))).
Proof.
  intros He Hraw Hv Hvalue.
  rewrite (meta_num_match_unfold post tag value e raw info_v) by done.
  rewrite compare_comma_list by done. cbn [bind].
  by destruct (entry_contains "reverse_cmp" e).
Qed.

(** A width of 1920 satisfies [width:1280,1920]. *)
Lemma comma_list_uses_converted_value_witness :
  let post := Sample.post [("image_width", VInt 1920)] in
  table_get META_NUM_TAGS "width" = Ok (entry "image_width" conv_int [])
  ∧ info post !! "image_width" = Some (VInt 1920)
  ∧ Builtin.int (VInt 1920) = Ok (VInt 1920)
  ∧ comma_list_value "1280,1920" = true
  ∧ Sample._meta_num_match post "width" "1280,1920" = Ok true.
Proof.
  repeat (split; [reflexivity|]).
  exact (comma_list_uses_converted_value (H := Sample.externals)
           (Sample.post [("image_width", VInt 1920)]) "width" "1280,1920"
           (entry "image_width" conv_int []) (VInt 1920) (VInt 1920)
           eq_refl eq_refl eq_refl eq_refl).
Defined.

(** C6, as stated, fails for the raw value ["007"] and the term
    [width:7,8]: the term is true, yet the raw value stringified is not in
    the list (the converted value, [7], is). *)
Lemma comma_list_counterexample :
  let post := Sample.post [("image_width", VStr "007")] in
  info post !! "image_width" = Some (VStr "007")
  ∧ comma_list_value "7,8" = true
  ∧ Sample._meta_num_match post "width" "7,8" = Ok true
  ∧ @Builtin.str Sample.externals (VStr "007") ∉ PyStr.split "7,8" ",".
Proof.
  repeat (split; [reflexivity|]).
  vm_compute. intros Hin. 
  repeat (apply elem_of_cons in Hin as [Hin|Hin]; [discriminate Hin|]).
  by apply elem_of_nil in Hin.
Qed.

Section FuzzyFacts.
Context `{Externals}.

Lemma compare_plain_value (tag : string) (conv : pyval → result pyval)
    (info_v : pyval) (value : string) (fuzzy reverse : bool) :
  plain_value value = true →
  compare tag conv info_v value fuzzy reverse
  = match conv (VStr value) with
    | Raise _ => Raise (invalid_term tag value)
    | Ok value' =>
        match
          if fuzzy then
            chain_le (do d <- Py.truediv value' (VInt 20); Py.sub value' d)
                     info_v
                     (do d <- Py.truediv value' (VInt 20); Py.add value' d)
          else Ok (Py.eq info_v value')
        with
        | Ok b => Ok b
        | Raise _ => Raise (invalid_term tag (Builtin.str value'))
        end
    end.
Proof.
  intros [Hs Hc]%andb_true_iff. apply negb_true_iff, not_special in Hs.
  apply negb_true_iff in Hc.
  destruct Hs as (H1 & H2 & H3 & H4 & H5 & H6 & H7 & H8 & H9).
  unfold compare. by rewrite H1, H2, H3, H4, H5, H6, H7, H8, H9, Hc.
Qed.

(** Comparisons of an integer with the two bounds for a target of one
    million. *)
Lemma le_lower_bound (n : Z) :
  Py.le (VFloat 950000) (VInt n) = Ok (950000 <=? n).
Proof.
  unfold Py.le, Py.order. cbn [Py.as_number Py.number_compare bind].
  unfold Py.Z_float_compare.
  replace (Prim2SF 950000) with (S754_finite false 8160437862400000 (-33))
    by (vm_compute; reflexivity).
  cbn [Z.leb Z.compare Z.opp fmap option_fmap option_map bind].
  change (2 ^ (- (-33))) with 8589934592.
  f_equal. destruct (Z.compare_spec (n * 8589934592) 8160437862400000);
    cbn [CompOpp]; destruct (Z.leb_spec 950000 n); (done || lia).
Qed.

Lemma le_upper_bound (n : Z) :
  Py.le (VInt n) (VFloat 1050000) = Ok (n <=? 1050000).
Proof.
  unfold Py.le, Py.order. cbn [Py.as_number Py.number_compare bind].
  unfold Py.Z_float_compare.
  replace (Prim2SF 1050000) with (S754_finite false 4509715660800000 (-32))
    by (vm_compute; reflexivity).
  cbn [Z.leb Z.compare Z.opp fmap option_fmap option_map bind].
  change (2 ^ (- (-32))) with 4294967296.
  f_equal. destruct (Z.compare_spec (n * 4294967296) 4509715660800000);
    destruct (Z.leb_spec n 1050000); (done || lia).
Qed.

End FuzzyFacts.

Section RangeFacts.
Context `{Externals}.

Lemma compare_range (tag : string) (conv : pyval → result pyval)
    (info_v : pyval) (value begin_ end_ : string) (fuzzy reverse : bool) :
  range_value value = true →
  PyStr.split_max value ".." 1 = [begin_; end_] →
  compare tag conv info_v value fuzzy reverse
  = if reverse then
      do inside <- chain_le (conv (VStr end_)) info_v (conv (VStr begin_));
      Ok (negb inside)
    else chain_le (conv (VStr begin_)) info_v (conv (VStr end_)).
Proof.
  intros [Hs Hc]%andb_true_iff Hsplit. apply negb_true_iff in Hs.
  rewrite !orb_false_iff in Hs.
  destruct Hs as (((((((H1 & H2) & H3) & H4) & H5) & H6) & H7) & H8).
  unfold compare. by rewrite H1, H2, H3, H4, H5, H6, H7, H8, Hc, Hsplit.
Qed.

Lemma chain_le_ok (a b : result pyval) (x v y : pyval) (b1 b2 : bool) :
  a = Ok x → b = Ok y → Py.le x v = Ok b1 → Py.le v y = Ok b2 →
  chain_le a v b = Ok (b1 && b2).
Proof.
  intros -> -> H1 H2. unfold chain_le. cbn [bind]. rewrite H1. cbn [bind].
  destruct b1; [|done]. cbn [bind]. by rewrite H2.
Qed.

End RangeFacts.

(** C3 (amended): [age:1day..1week] is true for the posts whose converted
    [created_at] lies inside [[convert("1week"), convert("1day")]] (bounds
    included), and false for the posts outside: the negation in the range
    case and the final negation cancel. *)
Theorem age_range_true_inside `{Externals} (post : Post)
    (raw v lo hi : pyval) (b1 b2 : bool) :
  info post !! "created_at" = Some raw →
  age2date raw = Ok v →
  age2date (VStr "1week") = Ok lo →
  age2date (VStr "1day") = Ok hi →
  Py.le lo v = Ok b1 →
  Py.le v hi = Ok b2 →
  _meta_num_match post "age" "1day..1week" = Ok (b1 && b2).
Proof.
  intros Hraw Hv Hlo Hhi H1 H2.
  rewrite (meta_num_match_unfold post "age" "1day..1week"
             (entry "created_at" conv_age2date ["reverse_cmp"]) raw v)
    by done.
  rewrite (compare_range _ _ _ _ "1day" "1week") by done.
  change (entry_contains "reverse_cmp" _) with true. cbn iota.
  cbn [apply_converter convert entry].
  rewrite (chain_le_ok _ _ lo v hi b1 b2) by done.
  cbn [bind negb]. by rewrite negb_involutive.
Qed.

(** A post two days old satisfies [age:1day..1week]. *)
Lemma age_range_true_inside_witness :
  let post := Sample.post [("created_at", VDate (Sample.now - 2 * Sample.day))] in
  info post !! "created_at" = Some (VDate (Sample.now - 2 * Sample.day))
  ∧ Sample.age_to_date (VDate (Sample.now - 2 * Sample.day))
    = Ok (VDate (Sample.now - 2 * Sample.day))
  ∧ Sample.age_to_date (VStr "1week") = Ok (VDate (Sample.now - 7 * Sample.day))
  ∧ Sample.age_to_date (VStr "1day") = Ok (VDate (Sample.now - Sample.day))
  ∧ Py.le (VDate (Sample.now - 7 * Sample.day))
          (VDate (Sample.now - 2 * Sample.day)) = Ok true
  ∧ Py.le (VDate (Sample.now - 2 * Sample.day))
          (VDate (Sample.now - Sample.day)) = Ok true
  ∧ Sample._meta_num_match post "age" "1day..1week" = Ok true.
Proof.
  repeat (split; [reflexivity|]).
  exact (age_range_true_inside (H := Sample.externals)
           (Sample.post [("created_at", VDate (Sample.now - 2 * Sample.day))])
           (VDate (Sample.now - 2 * Sample.day))
           (VDate (Sample.now - 2 * Sample.day))
           (VDate (Sample.now - 7 * Sample.day))
           (VDate (Sample.now - Sample.day)) true true
           eq_refl eq_refl eq_refl eq_refl eq_refl eq_refl).
Defined.

(** C3, as stated, fails: a post two days old lies inside the range and the
    term is true for it, a post eight days old lies outside and the term is
    false for it. *)
Lemma age_range_counterexample :
  let inside := Sample.post [("created_at", VDate (Sample.now - 2 * Sample.day))] in
  let outside := Sample.post [("created_at", VDate (Sample.now - 8 * Sample.day))] in
  Py.le (VDate (Sample.now - 7 * Sample.day))
        (VDate (Sample.now - 2 * Sample.day)) = Ok true
  ∧ Py.le (VDate (Sample.now - 2 * Sample.day))
          (VDate (Sample.now - Sample.day)) = Ok true
  ∧ Sample._meta_num_match inside "age" "1day..1week" = Ok true
  ∧ Py.le (VDate (Sample.now - 7 * Sample.day))
          (VDate (Sample.now - 8 * Sample.day)) = Ok false
  ∧ Sample._meta_num_match outside "age" "1day..1week" = Ok false.
Proof. repeat split; vm_compute; reflexivity. Qed.

(** C9: for [filesize], a term whose value is a plain number is true exactly
    when [t - t/20 <= v <= t + t/20], for [v] the converted field value and
    [t] the converted value string, the bounds and the comparisons being
    Python's; for [t = 1000000] and an integer [v], exactly when
    [950000 <= v <= 1050000]. *)
Theorem filesize_fuzzy_equality `{Externals} (post : Post) (value : string)
    (raw v t : pyval) :
  plain_value value = true →
  info post !! "file_size" = Some raw →
  human2bytes raw = Ok v →
  human2bytes (VStr value) = Ok t →
  (∀ (d lo hi : pyval) (b1 b2 : bool),
     Py.truediv t (VInt 20) = Ok d →
     Py.sub t d = Ok lo → Py.add t d = Ok hi →
     Py.le lo v = Ok b1 → Py.le v hi = Ok b2 →
     _meta_num_match post "filesize" value = Ok (b1 && b2))
  ∧ (∀ n : Z,
       t = VInt 1000000 → v = VInt n →
       _meta_num_match post "filesize" value
       = Ok ((950000 <=? n) && (n <=? 1050000))).
Proof.
  intros Hvalue Hraw Hv Ht.
  assert (Hgen : ∀ (d lo hi : pyval) (b1 b2 : bool),
     Py.truediv t (VInt 20) = Ok d →
     Py.sub t d = Ok lo → Py.add t d = Ok hi →
     Py.le lo v = Ok b1 → Py.le v hi = Ok b2 →
     _meta_num_match post "filesize" value = Ok (b1 && b2)).
  { intros d lo hi b1 b2 Hd Hlo Hhi H1 H2.
    rewrite (meta_num_match_unfold post "filesize" value
               (entry "file_size" conv_human2bytes ["eq_fuzzy_20"]) raw v)
      by done.
    rewrite compare_plain_value by done.
    cbn [apply_converter convert entry]. rewrite Ht.
    change (entry_contains "eq_fuzzy_20" _) with true.
    change (entry_contains "reverse_cmp" _) with false. cbn iota.
    rewrite (chain_le_ok _ _ lo v hi b1 b2); [done| | |done..].
    - rewrite Hd. cbn [bind]. exact Hlo.
    - rewrite Hd. cbn [bind]. exact Hhi. }
  split; [exact Hgen|].
  intros n -> ->.
  apply (Hgen (VFloat 50000) (VFloat 950000) (VFloat 1050000)).
  - vm_compute. reflexivity.
  - vm_compute. reflexivity.
  - vm_compute. reflexivity.
  - apply le_lower_bound.
  - apply le_upper_bound.
Qed.

(** A file of 1049000 bytes satisfies [filesize:1000000]. *)
Lemma filesize_fuzzy_equality_witness :
  let post := Sample.post [("file_size", VInt 1049000)] in
  plain_value "1000000" = true
  ∧ info post !! "file_size" = Some (VInt 1049000)
  ∧ Builtin.int (VInt 1049000) = Ok (VInt 1049000)
  ∧ Builtin.int (VStr "1000000") = Ok (VInt 1000000)
  ∧ Sample._meta_num_match post "filesize" "1000000" = Ok true.
Proof.
  repeat (split; [reflexivity|]).
  exact (proj2 (filesize_fuzzy_equality (H := Sample.externals)
                  (Sample.post [("file_size", VInt 1049000)]) "1000000"
                  (VInt 1049000) (VInt 1049000) (VInt 1000000)
                  eq_refl eq_refl eq_refl eq_refl)
               1049000 eq_refl eq_refl).
Defined.

(** ** Missing fields *)

Lemma table_get_has {A} (d : list (string * A)) (key : string) (a : A) :
  table_get d key = Ok a → table_has d key = true.
Proof.
  unfold table_has. induction d as [|[k x] d IH]; [done|].
  cbn [table_get existsb fst]. destruct (String.eqb k key); [done|].
  intros Hd. by rewrite IH.
Qed.

Lemma table_has_get {A} (d : list (string * A)) (key : string) :
  table_has d key = false → table_get d key = Raise (KeyError key).
Proof.
  unfold table_has. induction d as [|[k x] d IH]; [done|].
  cbn [table_get existsb fst]. destruct (String.eqb k key); [done|].
  exact IH.
Qed.

Lemma num_key_rstrip (name : string) :
  table_has META_NUM_TAGS name = true → PyStr.rstrip name "~-" = name.
Proof.
  intros Hnum%table_has_keys. cbn in Hnum.
  repeat (apply elem_of_cons in Hnum as [->|Hnum]; [reflexivity|]).
  by apply elem_of_nil in Hnum.
Qed.

Lemma plain_name_lacks_colon (name : string) :
  plain_name name = true → lacks ":" name.
Proof. intros [Hc _]%andb_true_iff. by apply negb_true_iff in Hc. Qed.

Section MissingField.
Context `{Externals}.

Lemma meta_num_term_missing_field (post : Post) (name value : string)
    (e : num_entry) :
  table_get META_NUM_TAGS name = Ok e →
  info post !! field e = None →
  meta_num_term post (name +:+ ":" +:+ value) = Raise (KeyError (field e)).
Proof.
  intros He Hnone. pose proof (table_get_has _ _ _ He) as Hhas.
  unfold meta_num_term.
  rewrite unpack_term_colon by by apply plain_name_lacks_colon, num_keys_plain.
  cbn [bind fst snd]. rewrite num_key_rstrip by done.
  unfold _meta_num_match, getitem. rewrite He. cbn [bind].
  by rewrite Hnone.
Qed.

Lemma str_field_key (name value f : string) :
  str_field name value = Some f →
  table_has META_STR_TAGS_FUNCS name = true.
Proof.
  unfold str_field.
  repeat match goal with
    | |- context [String.eqb name ?k] =>
        destruct (String.eqb_spec name k) as [->|_]; [done|]
    end.
  done.
Qed.

Lemma meta_str_term_missing_field (post : Post) (name value f : string) :
  str_field name value = Some f →
  info post !! f = None →
  meta_str_term post (name +:+ ":" +:+ value) = Raise (KeyError f).
Proof.
  intros Hf Hnone. pose proof (str_field_key _ _ _ Hf) as Hhas.
  unfold meta_str_term.
  rewrite unpack_term_colon by by apply plain_name_lacks_colon, str_keys_plain.
  cbn [bind fst snd]. revert Hf. unfold str_field.
  repeat match goal with
    | |- context [String.eqb name ?k] =>
        destruct (String.eqb_spec name k) as [->|_]
    end; try discriminate.
  1-5: intros [= <-]; cbn; unfold getitem; by rewrite Hnone.
  destruct (String.eqb value "any" || String.eqb value "all") eqn:E;
    [discriminate|].
  intros [= <-]. cbn. rewrite E. unfold getitem. by rewrite Hnone.
Qed.

End MissingField.

Section Propagation.
Context `{Externals}.

Lemma eval_meta_num_raises (post : Post) (terms : list string) (t : string)
    (e : exn) (presences : dict pyval) :
  t ∈ terms → meta_num_term post t = Raise e →
  is_ok (eval_meta_num post terms presences) = false.
Proof.
  intros Hin Ht. revert presences.
  induction terms as [|u terms IH]; intros presences.
  - by apply elem_of_nil in Hin.
  - cbn [eval_meta_num].
    apply elem_of_cons in Hin as [<-|Hin]; [by rewrite Ht|].
    destruct (meta_num_term post u); [|done]. cbn [bind]. by apply IH.
Qed.

Lemma eval_meta_str_raises (post : Post) (terms : list string) (t : string)
    (e : exn) (presences : dict pyval) :
  t ∈ terms → meta_str_term post t = Raise e →
  is_ok (eval_meta_str post terms presences) = false.
Proof.
  intros Hin Ht. revert presences.
  induction terms as [|u terms IH]; intros presences.
  - by apply elem_of_nil in Hin.
  - cbn [eval_meta_str].
    apply elem_of_cons in Hin as [<-|Hin]; [by rewrite Ht|].
    destruct (meta_str_term post u); [|done]. cbn [bind]. by apply IH.
Qed.

Lemma filter_post_raises (post : Post) (tags meta_num meta_str : gset string)
    (t : string) (e : exn) (return_analyze : bool) :
  (t ∈ meta_num ∧ meta_num_term post t = Raise e)
  ∨ (t ∈ meta_str ∧ meta_str_term post t = Raise e) →
  is_ok (_filter_post post tags meta_num meta_str return_analyze) = false.
Proof.
  intros Hterm. unfold _filter_post, filter_post_in_order.
  destruct (eval_tags post (elements tags) []) as [p1|]; [|done].
  cbn [bind]. destruct Hterm as [[Hin Ht]|[Hin Ht]].
  - apply elem_of_elements in Hin.
    pose proof (eval_meta_num_raises post _ t e p1 Hin Ht) as Hr.
    by destruct (eval_meta_num post (elements meta_num) p1).
  - destruct (eval_meta_num post (elements meta_num) p1) as [p2|]; [|done].
    cbn [bind]. apply elem_of_elements in Hin.
    pose proof (eval_meta_str_raises post _ t e p2 Hin Ht) as Hr.
    by destruct (eval_meta_str post (elements meta_str) p2).
Qed.

Lemma search_loop_raises (posts : list Post) (post : Post)
    (tags meta_num meta_str : gset string) (yield_analyze : bool) :
  post ∈ posts →
  is_ok (_filter_post post tags meta_num meta_str yield_analyze) = false →
  is_Some (search_loop posts tags meta_num meta_str yield_analyze).2.
Proof.
  intros Hin Hpost. induction posts as [|p posts IH].
  - by apply elem_of_nil in Hin.
  - cbn [search_loop].
    destruct (_filter_post p tags meta_num meta_str yield_analyze)
      as [r|e] eqn:Hp; [|by eexists].
    apply elem_of_cons in Hin as [->|Hin]; [by rewrite Hp in Hpost|].
    specialize (IH Hin). by destruct r as [[]|].
Qed.

End Propagation.

(** C10: when the info mapping of a post lacks the field that a numeric or
    string metatag term of the query reads, evaluating the term raises
    [KeyError], and [search] over any posts that include this post ends with
    an exception: the post is not silently filtered out. *)
Theorem missing_field_raises `{Externals} (posts : list Post)
    (terms : string) (tokens : list string) (post : Post)
    (name value f : string) (yield_analyze : bool) :
  Shlex.split terms = Ok tokens →
  name +:+ ":" +:+ value ∈ tokens →
  post ∈ posts →
  term_field name value = Some f →
  info post !! f = None →
  (if table_has META_NUM_TAGS name
   then meta_num_term post (name +:+ ":" +:+ value) = Raise (KeyError f)
   else meta_str_term post (name +:+ ":" +:+ value) = Raise (KeyError f))
  ∧ is_Some (search posts terms yield_analyze).2.
Proof.
  intros Hsplit Htok Hpost Hfield Hnone. unfold term_field in Hfield.
  assert (Hterm :
    if table_has META_NUM_TAGS name
    then meta_num_term post (name +:+ ":" +:+ value) = Raise (KeyError f)
         ∧ term_name (name +:+ ":" +:+ value) = name
    else meta_str_term post (name +:+ ":" +:+ value) = Raise (KeyError f)
         ∧ term_name (name +:+ ":" +:+ value) = name
         ∧ table_has META_STR_TAGS_FUNCS name = true).
  { destruct (table_get META_NUM_TAGS name) as [e|err] eqn:He.
    - injection Hfield as <-. rewrite (table_get_has _ _ _ He). split.
      + by apply meta_num_term_missing_field.
      + apply term_name_colon, plain_name_lacks_colon, num_keys_plain.
        by eapply table_get_has.
    - destruct (table_has META_NUM_TAGS name) eqn:Hhas.
      { apply table_has_keys in Hhas. cbn in Hhas.
        repeat (apply elem_of_cons in Hhas as [->|Hhas]; [discriminate He|]).
        by apply elem_of_nil in Hhas. }
      pose proof (str_field_key _ _ _ Hfield) as Hkey.
      split; [by apply meta_str_term_missing_field|]. split; [|done].
      by apply term_name_colon, plain_name_lacks_colon, str_keys_plain. }
  split; [by destruct (table_has META_NUM_TAGS name); destruct Hterm|].
  unfold search, classify. rewrite Hsplit. cbn [bind].
  unfold classify_terms. apply search_loop_raises with post; [done|].
  apply filter_post_raises with (name +:+ ":" +:+ value) (KeyError f).
  destruct (table_has META_NUM_TAGS name) eqn:Hhas.
  - destruct Hterm as [Hraise Hname]. left. split; [|done].
    apply elem_of_filter. rewrite Hname.
    split; [done|by apply elem_of_list_to_set].
  - destruct Hterm as (Hraise & Hname & Hkey). right. split; [|done].
    apply elem_of_filter. rewrite Hname.
    split; [done|by apply elem_of_list_to_set].
Qed.

(** A post without [score] under the query [cat score:>=50]. *)
Lemma missing_field_raises_witness :
  let post := Sample.post [("tag_string", VStr "cat")] in
  Shlex.split "cat score:>=50" = Ok ["cat"; "score:>=50"]
  ∧ ("score:>=50" : string) ∈ ["cat"; "score:>=50"]
  ∧ post ∈ [post]
  ∧ term_field "score" ">=50" = Some "score"
  ∧ info post !! "score" = None
  ∧ @meta_num_term Sample.externals post "score:>=50"
    = Raise (KeyError "score")
  ∧ Sample.search [post] "cat score:>=50" false
    = ([], Some (KeyError "score")).
Proof.
  assert (Htok : ("score:>=50" : string) ∈ ["cat"; "score:>=50"])
    by (apply elem_of_cons; right; apply list_elem_of_here).
  assert (Hpost : Sample.post [("tag_string", VStr "cat")]
                  ∈ [Sample.post [("tag_string", VStr "cat")]])
    by apply list_elem_of_here.
  split; [reflexivity|]. split; [exact Htok|]. split; [exact Hpost|].
  split; [reflexivity|]. split; [reflexivity|].
  split; [|vm_compute; reflexivity].
  exact (proj1 (missing_field_raises (H := Sample.externals)
                  [Sample.post [("tag_string", VStr "cat")]]
                  "cat score:>=50" ["cat"; "score:>=50"]
                  (Sample.post [("tag_string", VStr "cat")])
                  "score" ">=50" "score" false
                  eq_refl Htok Hpost eq_refl eq_refl)).
Defined.

(** ** The iteration order of the three sets *)

Section IterationOrder.
Context `{Externals}.

Lemma eval_tags_loop (post : Post) (tags : list string)
    (presences : dict pyval) :
  eval_tags post tags presences
  = eval_loop (fun t => VBool <$> _tag_present post t) tags presences.
Proof.
  revert presences. induction tags as [|t tags IH]; intros presences; [done|].
  cbn [eval_tags eval_loop].
  destruct (_tag_present post t); [|done]. apply IH.
Qed.

Lemma eval_meta_num_loop (post : Post) (terms : list string)
    (presences : dict pyval) :
  eval_meta_num post terms presences
  = eval_loop (fun t => VBool <$> meta_num_term post t) terms presences.
Proof.
  revert presences. induction terms as [|t terms IH]; intros presences; [done|].
  cbn [eval_meta_num eval_loop].
  destruct (meta_num_term post t); [|done]. apply IH.
Qed.

Lemma eval_meta_str_loop (post : Post) (terms : list string)
    (presences : dict pyval) :
  eval_meta_str post terms presences
  = eval_loop (meta_str_term post) terms presences.
Proof.
  revert presences. induction terms as [|t terms IH]; intros presences; [done|].
  cbn [eval_meta_str eval_loop].
  destruct (meta_str_term post t); [|done]. apply IH.
Qed.

Lemma dict_set_fresh {V} (d : dict V) (key : string) (v : V) :
  key ∉ d.*1 → dict_set d key v = d ++ [(key, v)].
Proof.
  induction d as [|[k w] d IH]; [done|].
  cbn [fmap list_fmap fst dict_set]. rewrite not_elem_of_cons.
  intros [Hne Hd]. destruct (String.eqb_spec k key) as [->|_]; [done|].
  by rewrite IH.
Qed.

Lemma eval_loop_ok (f : string → result pyval) (terms : list string)
    (presences : dict pyval) :
  NoDup terms → (∀ t, t ∈ terms → t ∉ presences.*1) →
  forallb (fun t => is_ok (f t)) terms = true →
  eval_loop f terms presences
  = Ok (presences ++ map (fun t => (t, term_value f t)) terms).
Proof.
  intros Hnodup. revert presences.
  induction Hnodup as [|t terms Ht Hterms IH]; intros presences Hfresh.
  - intros _. cbn [eval_loop map]. by rewrite app_nil_r.
  - cbn [forallb eval_loop map]. intros [Hok Hrest]%andb_true_iff.
    unfold term_value at 1. destruct (f t) as [v|]; [|done]. cbn [bind].
    rewrite dict_set_fresh by (apply Hfresh, list_elem_of_here).
    rewrite IH; [by rewrite <- List.app_assoc| |done].
    intros u Hu. rewrite fmap_app, elem_of_app. cbn.
    intros [Hin|Hin%list_elem_of_singleton].
    + by apply (Hfresh u); [apply list_elem_of_further|].
    + congruence.
Qed.

Lemma eval_loop_raise (f : string → result pyval) (terms : list string)
    (presences : dict pyval) :
  forallb (fun t => is_ok (f t)) terms = false →
  is_ok (eval_loop f terms presences) = false.
Proof.
  revert presences. induction terms as [|t terms IH]; intros presences.
  - done.
  - cbn [forallb eval_loop]. destruct (f t); [|done]. cbn [is_ok andb bind].
    apply IH.
Qed.



Lemma entries_keys (f : string → result pyval) (l : list string) :
  (map (fun t => (t, term_value f t)) l).*1 = l.
Proof. induction l as [|t l IH]; [done|]. cbn. by rewrite IH. Qed.

Lemma decision_raise (r : result (dict pyval)) (k : dict pyval → result filter_result) :
  is_ok r = false → decision (do presences <- r; k presences) = None.
Proof. by destruct r. Qed.

(** The decision in closed form: every term is evaluated, and the decision
    rule runs over the terms with their values. *)
Lemma filter_post_decision (post : Post) (l1 l2 l3 : list string) :
  NoDup (l1 ++ l2 ++ l3) →
  let f1 := fun t => VBool <$> _tag_present post t in
  let f2 := fun t => VBool <$> meta_num_term post t in
  let f3 := meta_str_term post in
  decision (filter_post_in_order post l1 l2 l3 false)
  = if forallb (fun t => is_ok (f1 t)) l1
       && forallb (fun t => is_ok (f2 t)) l2
       && forallb (fun t => is_ok (f3 t)) l3
    then
      decision (Decision <$> decide_presences
                  (map (fun t => (t, term_value f1 t)) l1
                   ++ map (fun t => (t, term_value f2 t)) l2
                   ++ map (fun t => (t, term_value f3 t)) l3) false false)
    else None.
Proof.
  intros Hnodup f1 f2 f3.
  apply NoDup_app in Hnodup as (Hl1 & H1 & Hnodup).
  apply NoDup_app in Hnodup as (Hl2 & H2 & Hl3).
  unfold filter_post_in_order.
  rewrite eval_tags_loop. fold f1.
  destruct (forallb (fun t => is_ok (f1 t)) l1) eqn:E1; cycle 1.
  { apply decision_raise. by apply eval_loop_raise. }
  rewrite eval_loop_ok; [|done|by intros t _ ?%elem_of_nil|done].
  cbn [bind app]. rewrite eval_meta_num_loop. fold f2.
  destruct (forallb (fun t => is_ok (f2 t)) l2) eqn:E2; cycle 1.
  { apply decision_raise. by apply eval_loop_raise. }
  rewrite eval_loop_ok; [|done| |done]; cycle 1.
  { intros t Ht. rewrite entries_keys. intros Hin.
    apply (H1 t Hin). apply elem_of_app. by left. }
  cbn [bind]. rewrite eval_meta_str_loop. fold f3.
  destruct (forallb (fun t => is_ok (f3 t)) l3) eqn:E3; cycle 1.
  { apply decision_raise. by apply eval_loop_raise. }
  rewrite eval_loop_ok; [|done| |done]; cycle 1.
  { intros t Ht. rewrite fmap_app, !entries_keys, elem_of_app.
    intros [Hin|Hin].
    - apply (H1 t Hin). apply elem_of_app. by right.
    - by apply (H2 t Hin). }
  cbn [bind andb]. by rewrite <- List.app_assoc.
Qed.


End IterationOrder.


(** ** Negation and the OR group on plain tags *)

(** C1 (what the code does): the query [-explicit safe] rejects every post
    that has a tag string, also those with the tag [safe] and without the
    tag [explicit]: presence is tested for the token [-explicit] itself, and
    an absent term without [~] rejects the post. *)
Theorem negation_query_rejects_every_post `{Externals} (post : Post)
    (tag_string : pyval) :
  info post !! "tag_string" = Some tag_string →
  search [post] "-explicit safe" false = ([], None).
Proof.
  intros Hinfo. unfold search.
  replace (classify "-explicit safe")
    with (Ok (list_to_set ["-explicit"; "safe"] : gset string,
              ∅ : gset string, ∅ : gset string))
    by (vm_compute; reflexivity).
  cbn [search_loop]. unfold _filter_post.
  replace (elements (list_to_set ["-explicit"; "safe"] : gset string))
    with ["safe"; "-explicit"] by (vm_compute; reflexivity).
  rewrite elements_empty. unfold filter_post_in_order.
  cbn [eval_tags eval_meta_num eval_meta_str].
  unfold _tag_present, getitem. rewrite Hinfo. cbn [bind].
  destruct (PyStr.contains (" " +:+ "safe" +:+ " ") _);
    destruct (PyStr.contains (" " +:+ "-explicit" +:+ " ") _); reflexivity.
Qed.

(** The post with the single tag [safe] is rejected. *)
Lemma negation_query_rejects_every_post_witness :
  let post := Sample.post [("tag_string", VStr "safe")] in
  info post !! "tag_string" = Some (VStr "safe")
  ∧ Sample.search [post] "-explicit safe" false = ([], None).
Proof.
  split; [reflexivity|].
  exact (negation_query_rejects_every_post (H := Sample.externals)
           (Sample.post [("tag_string", VStr "safe")]) (VStr "safe") eq_refl).
Defined.

(** C2 (what the code does): the query [~foo ~bar baz] rejects every post
    none of whose tags starts with [~], also a post with the tags [baz] and
    [foo]: presence is tested for the tokens [~foo] and [~bar]
    themselves. *)
Theorem or_group_query_rejects_unmarked_tags `{Externals} (post : Post)
    (tags : list string) :
  info post !! "tag_string" = Some (VStr (PyStr.join " " tags)) →
  Forall well_formed_tag tags →
  Forall unmarked_tag tags →
  search [post] "~foo ~bar baz" false = ([], None).
Proof.
  intros Hinfo Htags Hplain. unfold search.
  replace (classify "~foo ~bar baz")
    with (Ok (list_to_set ["~foo"; "~bar"; "baz"] : gset string,
              ∅ : gset string, ∅ : gset string))
    by (vm_compute; reflexivity).
  cbn [search_loop]. unfold _filter_post.
  replace (elements (list_to_set ["~foo"; "~bar"; "baz"] : gset string))
    with ["~foo"; "~bar"; "baz"] by (vm_compute; reflexivity).
  rewrite elements_empty. unfold filter_post_in_order.
  cbn [eval_tags eval_meta_num eval_meta_str].
  assert (Hspace : Forall (lacks " ") tags).
  { eapply Forall_impl; [exact Htags|].
    intros t [_ Ht]. by apply whitespace_free_lacks_space. }
  assert (Hmarked : ∀ t, PyStr.startswith t "~" = true → t ∉ tags).
  { intros t Ht Hin. rewrite Forall_forall in Hplain.
    specialize (Hplain t Hin). unfold unmarked_tag in Hplain. congruence. }
  rewrite (tag_present_join post tags "~foo") by done.
  rewrite (bool_decide_eq_false_2 ("~foo" ∈ tags)) by by apply Hmarked.
  cbn [bind].
  rewrite (tag_present_join post tags "~bar") by done.
  rewrite (bool_decide_eq_false_2 ("~bar" ∈ tags)) by by apply Hmarked.
  cbn [bind].
  rewrite (tag_present_join post tags "baz") by done.
  cbn [bind]. by destruct (bool_decide ("baz" ∈ tags)).
Qed.

(** The post with the tags [baz] and [foo] is rejected. *)
Lemma or_group_query_rejects_unmarked_tags_witness :
  let post := Sample.post [("tag_string", VStr "baz foo")] in
  info post !! "tag_string" = Some (VStr (PyStr.join " " ["baz"; "foo"]))
  ∧ Forall well_formed_tag ["baz"; "foo"]
  ∧ Forall unmarked_tag ["baz"; "foo"]
  ∧ Sample.search [post] "~foo ~bar baz" false = ([], None).
Proof.
  assert (Htags : Forall well_formed_tag ["baz"; "foo"])
    by (repeat constructor; done).
  assert (Hplain : Forall unmarked_tag ["baz"; "foo"])
    by (repeat constructor; done).
  split; [reflexivity|]. split; [exact Htags|]. split; [exact Hplain|].
  exact (or_group_query_rejects_unmarked_tags (H := Sample.externals)
           (Sample.post [("tag_string", VStr "baz foo")]) ["baz"; "foo"]
           eq_refl Htags Hplain).
Defined.

(** ** The decision rule *)

Lemma startswith_char (c d : ascii) (s : string) :
  PyStr.startswith (String c s) (String d "") = Ascii.eqb c d.
Proof.
  unfold PyStr.startswith. cbn [String.prefix].
  destruct (ascii_dec d c) as [->|Hne].
  - rewrite prefix_nil. by rewrite Ascii.eqb_refl.
  - symmetry. apply Ascii.eqb_neq. congruence.
Qed.

Lemma decide_presences_general (items : dict pyval) (a b : bool) :
  Forall (fun it => it.1 ≠ "") items →
  decide_presences items a b
  = Ok (forallb entry_passes items
        && negb ((a || existsb (fun it => or_marked it.1) items)
                 && negb (b || existsb (fun it => or_marked it.1
                                                   && Py.truthy it.2) items))).
Proof.
  intros Hne. revert a b.
  induction Hne as [|[t p] items Ht _ IH]; intros a b.
  - cbn. by destruct a, b.
  - cbn [fst] in Ht. destruct t as [|c t]; [done|].
    assert (Hor : or_marked (String c t) = Ascii.eqb c "~")
      by apply startswith_char.
    assert (Hneg : negated (String c t) = Ascii.eqb c "-")
      by apply startswith_char.
    cbn [decide_presences PyStr.first bind forallb existsb fst snd].
    unfold entry_passes at 1. cbn [fst snd]. rewrite Hor, Hneg.
    destruct (Ascii.eqb_spec c "-") as [->|Hc]; [by destruct (Py.truthy p)|].
    destruct (Ascii.eqb c "~"), (Py.truthy p); cbn [andb orb negb];
      rewrite ?IH; try done.
    all: do 2 f_equal;
      by destruct a, b, (existsb _ items), (existsb _ items).
Qed.

(** X1: for a presence map without the empty term, the decision is: every
    entry passes (an OR term always, a negated term never, any other term
    when it is present) and the OR group passes (there is no OR term, or one
    of them is present). *)
Theorem decide_presences_closed_form (items : dict pyval) :
  Forall (fun it => it.1 ≠ "") items →
  decide_presences items false false
  = Ok (forallb entry_passes items && or_group_passes items).
Proof.
  intros Hne. rewrite decide_presences_general by done.
  unfold or_group_passes. cbn [orb]. do 2 f_equal.
  by destruct (existsb _ items), (existsb _ items).
Qed.

Lemma decide_presences_closed_form_witness :
  Forall (fun it : string * pyval => it.1 ≠ "")
    [("cat", VBool true); ("~dog", VBool false); ("~bird", VBool true)]
  ∧ decide_presences
      [("cat", VBool true); ("~dog", VBool false); ("~bird", VBool true)]
      false false = Ok true.
Proof.
  assert (Hne : Forall (fun it : string * pyval => it.1 ≠ "")
            [("cat", VBool true); ("~dog", VBool false); ("~bird", VBool true)])
    by (repeat constructor; done).
  split; [exact Hne|].
  exact (decide_presences_closed_form _ Hne).
Defined.

Section Decision.
Context `{Externals}.

Lemma decide_presences_hopeless (items : dict pyval) (a b : bool) :
  existsb (fun it => hopeless it.1) items = true →
  decide_presences items a b ≠ Ok true.
Proof.
  revert a b. induction items as [|[t p] items IH]; intros a b; [done|].
  cbn [existsb decide_presences fst]. intros Hex.
  destruct t as [|c t]; [done|]. cbn [PyStr.first bind].
  unfold hopeless, negated in Hex. cbn [String.eqb orb] in Hex.
  change ("-" : string) with (String "-" "") in Hex.
  rewrite startswith_char in Hex.
  destruct (Ascii.eqb_spec c "-") as [->|_]; cbn [andb orb] in *.
  - by destruct (Py.truthy p).
  - destruct (Ascii.eqb c "~"), (Py.truthy p); cbn [andb negb];
      try done; by apply IH.
Qed.

Lemma dict_set_keys {V} (d : dict V) (key t : string) (v : V) :
  t ∈ (dict_set d key v).*1 ↔ t = key ∨ t ∈ d.*1.
Proof.
  induction d as [|[k w] d IH]; cbn [dict_set fmap list_fmap fst].
  - rewrite list_elem_of_singleton. rewrite elem_of_nil. tauto.
  - destruct (String.eqb_spec k key) as [->|Hne];
      cbn [fmap list_fmap fst]; rewrite !elem_of_cons.
    + tauto.
    + fold (@fmap list _ _ _ (@fst string V) (dict_set d key v)).
      rewrite IH. tauto.
Qed.

Lemma eval_loop_keys (f : string → result pyval) (terms : list string)
    (presences d : dict pyval) (t : string) :
  eval_loop f terms presences = Ok d →
  t ∈ d.*1 ↔ t ∈ terms ∨ t ∈ presences.*1.
Proof.
  revert presences. induction terms as [|u terms IH]; intros presences.
  - cbn [eval_loop]. intros [= <-]. rewrite elem_of_nil. tauto.
  - cbn [eval_loop]. destruct (f u) as [v|]; [|done]. cbn [bind].
    intros Hd. rewrite (IH _ Hd), dict_set_keys, elem_of_cons. tauto.
Qed.

(** The keys of the presence map are the terms of the three sets. *)
Lemma presences_keys (post : Post) (l1 l2 l3 : list string)
    (d : dict pyval) (t : string) :
  filter_post_in_order post l1 l2 l3 true = Ok (Analysis d) →
  t ∈ d.*1 ↔ t ∈ l1 ++ l2 ++ l3.
Proof.
  unfold filter_post_in_order.
  rewrite eval_tags_loop. destruct (eval_loop _ l1 []) as [p1|] eqn:E1; [|done].
  cbn [bind]. rewrite eval_meta_num_loop.
  destruct (eval_loop _ l2 p1) as [p2|] eqn:E2; [|done].
  cbn [bind]. rewrite eval_meta_str_loop.
  destruct (eval_loop _ l3 p2) as [p3|] eqn:E3; [|done].
  cbn [bind]. intros [= <-].
  rewrite (eval_loop_keys _ _ _ _ _ E3), (eval_loop_keys _ _ _ _ _ E2),
    (eval_loop_keys _ _ _ _ _ E1), !elem_of_app, elem_of_nil. tauto.
Qed.

Lemma filter_post_modes (post : Post) (l1 l2 l3 : list string) :
  filter_post_in_order post l1 l2 l3 false
  = do r <- filter_post_in_order post l1 l2 l3 true;
    match r with
    | Analysis d => Decision <$> decide_presences d false false
    | Decision b => Ok (Decision b)
    end.
Proof.
  unfold filter_post_in_order.
  destruct (eval_tags post l1 []) as [p1|]; [|done]. cbn [bind].
  destruct (eval_meta_num post l2 p1) as [p2|]; [|done]. cbn [bind].
  by destruct (eval_meta_str post l3 p2) as [p3|].
Qed.

Lemma filter_post_hopeless (post : Post) (l1 l2 l3 : list string)
    (t : string) :
  t ∈ l1 ++ l2 ++ l3 → hopeless t = true →
  filter_post_in_order post l1 l2 l3 false ≠ Ok (Decision true).
Proof.
  intros Hin Ht. rewrite filter_post_modes.
  destruct (filter_post_in_order post l1 l2 l3 true) as [[b|d]|] eqn:E;
    [| |done].
  - unfold filter_post_in_order in E.
    destruct (eval_tags post l1 []); [|done]. cbn [bind] in E.
    destruct (eval_meta_num post l2 _); [|done]. cbn [bind] in E.
    by destruct (eval_meta_str post l3 _).
  - cbn [bind].
    apply (presences_keys post l1 l2 l3 d t E) in Hin.
    apply list_elem_of_fmap in Hin as ([t' p] & -> & Hin).
    assert (Hex : existsb (fun it : string * pyval => hopeless it.1) d = true).
    { apply existsb_exists. exists (t', p). split; [|done].
      by apply list_elem_of_In. }
    pose proof (decide_presences_hopeless d false false Hex) as Hd.
    destruct (decide_presences d false false) as [[]|]; cbn; congruence.
Qed.

Lemma filter_post_false_decision (post : Post)
    (tags meta_num meta_str : gset string) (r : filter_result) :
  _filter_post post tags meta_num meta_str false = Ok r →
  ∃ b, r = Decision b.
Proof.
  unfold _filter_post, filter_post_in_order.
  destruct (eval_tags _ _ _); [|done]. cbn [bind].
  destruct (eval_meta_num _ _ _); [|done]. cbn [bind].
  destruct (eval_meta_str _ _ _); [|done]. cbn [bind].
  destruct (decide_presences _ _ _) as [b|]; [|done].
  intros [= <-]. by exists b.
Qed.


Lemma search_loop_filter_mode (posts : list Post)
    (tags meta_num meta_str : gset string) :
  ∃ n : nat,
    (search_loop posts tags meta_num meta_str false).1
    = YPost <$> List.filter (accepted tags meta_num meta_str) (take n posts)
    ∧ match (search_loop posts tags meta_num meta_str false).2 with
      | None => (length posts ≤ n)%nat
      | Some e =>
          ∃ p, posts !! n = Some p
               ∧ _filter_post p tags meta_num meta_str false = Raise e
      end.
Proof.
  induction posts as [|p posts (n & Hys & Hout)].
  - exists 0%nat. split; [done|]. cbn. lia.
  - cbn [search_loop].
    destruct (_filter_post p tags meta_num meta_str false) as [r|e] eqn:Hp.
    + destruct (filter_post_false_decision _ _ _ _ _ Hp) as [b ->].
      exists (S n). cbn [take List.filter]. unfold accepted at 1. rewrite Hp.
      destruct b; cbn [fst snd].
      * split; [by rewrite Hys|].
        destruct (search_loop posts _ _ _ _).2; [done|cbn; lia].
      * split; [done|].
        destruct (search_loop posts _ _ _ _).2; [done|cbn; lia].
    + exists 0%nat. split; [done|]. by exists p.
Qed.


End Decision.

(** ** What [search] yields *)

Section SearchFacts.
Context `{Externals}.

Lemma classified_tokens (terms : string) (tokens : list string)
    (tags meta_num meta_str : gset string) (t : string) :
  Shlex.split terms = Ok tokens →
  classify terms = Ok (tags, meta_num, meta_str) →
  t ∈ elements tags ++ elements meta_num ++ elements meta_str ↔ t ∈ tokens.
Proof.
  intros Hsplit. unfold classify. rewrite Hsplit. cbn [bind].
  intros Hc. assert (Hc' : classify_terms (list_to_set tokens)
                          = (tags, meta_num, meta_str)) by congruence.
  apply classify_terms_partition in Hc' as (_ & _ & _ & Hunion).
  rewrite !elem_of_app, !elem_of_elements.
  rewrite <- (elem_of_list_to_set (C := gset string)), <- Hunion.
  rewrite !elem_of_union. tauto.
Qed.

Lemma shlex_blank (q : string) :
  only_chars q Shlex.whitespace = true → Shlex.split q = Ok [].
Proof.
  unfold Shlex.split, only_chars. induction q as [|c q IH]; [done|].
  cbn [list_ascii_of_string forallb Shlex.tokens].
  intros [-> Hq]%andb_true_iff. cbn. by apply IH.
Qed.

Lemma search_loop_no_terms (posts : list Post) :
  search_loop posts ∅ ∅ ∅ false = (YPost <$> posts, None).
Proof.
  induction posts as [|p posts IH]; [done|].
  cbn [search_loop]. unfold _filter_post. rewrite elements_empty.
  cbn. by rewrite IH.
Qed.

End SearchFacts.





(** X4: when a token of the query is empty or starts with [-], [search] in
    filter mode yields no post, whatever the posts and the other tokens. *)
Theorem hopeless_token_yields_nothing `{Externals} (posts : list Post)
    (terms : string) (tokens : list string) (t : string) :
  Shlex.split terms = Ok tokens →
  t ∈ tokens → hopeless t = true →
  (search posts terms false).1 = [].
Proof.
  intros Hsplit Hin Ht.
  destruct (classify terms) as [[[tags meta_num] meta_str]|e] eqn:Hc;
    [|by unfold search; rewrite Hc].
  unfold search. rewrite Hc.
  destruct (search_loop_filter_mode posts tags meta_num meta_str)
    as (n & -> & _).
  replace (List.filter _ (take n posts)) with (@nil Post); [done|].
  symmetry. induction (take n posts) as [|p l IH]; [done|].
  cbn [List.filter]. rewrite <- IH. unfold accepted, _filter_post.
  pose proof (filter_post_hopeless p (elements tags) (elements meta_num)
                (elements meta_str) t) as Hp.
  destruct (filter_post_in_order p _ _ _ false) as [[[]|]|]; try done.
  exfalso. apply Hp; [|done|done].
  by apply (classified_tokens terms tokens).
Qed.

Lemma hopeless_token_yields_nothing_witness :
  let p := Sample.post [("tag_string", VStr "cat"); ("score", VInt 3)] in
  Shlex.split "cat -score:>5" = Ok ["cat"; "-score:>5"]
  ∧ ("-score:>5" : string) ∈ ["cat"; "-score:>5"]
  ∧ hopeless "-score:>5" = true
  ∧ (Sample.search [p] "cat -score:>5" false).1 = [].
Proof.
  assert (Hin : ("-score:>5" : string) ∈ ["cat"; "-score:>5"])
    by (apply elem_of_cons; right; apply list_elem_of_here).
  split; [reflexivity|]. split; [exact Hin|]. split; [reflexivity|].
  exact (hopeless_token_yields_nothing (H := Sample.externals)
           [Sample.post [("tag_string", VStr "cat"); ("score", VInt 3)]]
           "cat -score:>5" ["cat"; "-score:>5"] "-score:>5"
           eq_refl Hin eq_refl).
Defined.

(** X5: a query of whitespace only has no term and [search] yields every
    post, also a post without any field. *)
Theorem blank_query_yields_every_post `{Externals} (posts : list Post)
    (terms : string) :
  only_chars terms Shlex.whitespace = true →
  search posts terms false = (YPost <$> posts, None).
Proof.
  intros Hblank. unfold search, classify. rewrite shlex_blank by done.
  cbn [bind].
  replace (classify_terms (list_to_set [])) with
    ((∅ : gset string, ∅ : gset string), ∅ : gset string)
    by (vm_compute; reflexivity).
  apply search_loop_no_terms.
Qed.

Lemma blank_query_yields_every_post_witness :
  let p := Sample.post [] in
  only_chars "  " Shlex.whitespace = true
  ∧ Sample.search [p; p] "  " false = ([YPost p; YPost p], None).
Proof.
  split; [reflexivity|].
  exact (blank_query_yields_every_post (H := Sample.externals)
           [Sample.post []; Sample.post []] "  " eq_refl).
Defined.

(** ** Values of integer metatags *)

Lemma digit_cases (c : ascii) :
  PyStr.char_in c "0123456789" = true →
  c ∈ ["0"; "1"; "2"; "3"; "4"; "5"; "6"; "7"; "8"; "9"]%char.
Proof.
  unfold PyStr.char_in. intros (d & Hd & Hc)%existsb_exists.
  apply Ascii.eqb_eq in Hc as ->. by apply list_elem_of_In.
Qed.

(** A test on the first character of a string of digits fails for every
    character that is not a digit. *)
Lemma digit_not (c d : ascii) :
  PyStr.char_in c "0123456789" = true →
  PyStr.char_in d "0123456789" = false → c ≠ d.
Proof. intros Hc Hd ->. congruence. Qed.

Lemma eqb_first (c d : ascii) (s t : string) :
  c ≠ d → String.eqb (String c s) (String d t) = false.
Proof. intros Hne. cbn. by apply Ascii.eqb_neq in Hne as ->. Qed.

Lemma startswith_first (c d : ascii) (s t : string) :
  c ≠ d → PyStr.startswith (String c s) (String d t) = false.
Proof.
  intros Hne. unfold PyStr.startswith.
  rewrite prefix_cons, bool_decide_eq_false_2; [done|congruence].
Qed.

Lemma startswith_app (p s : string) : PyStr.startswith (p +:+ s) p = true.
Proof.
  unfold PyStr.startswith. induction p as [|c p IH]; [apply prefix_nil|].
  rewrite str_app_cons, prefix_cons, IH. by rewrite bool_decide_eq_true_2.
Qed.

Lemma str_drop_app (p s : string) : PyStr.drop (String.length p) (p +:+ s) = s.
Proof. induction p as [|c p IH]; [done|]. by rewrite str_app_cons. Qed.

Lemma str_length_app (s t : string) :
  String.length (s +:+ t) = (String.length s + String.length t)%nat.
Proof.
  induction s as [|c s IH]; [done|]. rewrite str_app_cons. cbn. by rewrite IH.
Qed.

Lemma str_take_app (p s : string) : PyStr.take (String.length p) (p +:+ s) = p.
Proof.
  induction p as [|c p IH]; [by destruct s|].
  rewrite str_app_cons. cbn. by rewrite IH.
Qed.

Lemma str_take_drop (k : nat) (s : string) :
  PyStr.take k s +:+ PyStr.drop k s = s.
Proof.
  revert s. induction k as [|k IH]; intros [|c s]; try done.
  cbn [PyStr.take PyStr.drop]. by rewrite str_app_cons, IH.
Qed.

Lemma endswith_app (s p : string) : PyStr.endswith (s +:+ p) p = true.
Proof.
  unfold PyStr.endswith. rewrite str_length_app.
  replace (String.length s + String.length p - String.length p)%nat
    with (String.length s) by lia.
  rewrite str_drop_app, String.eqb_refl, andb_true_r.
  apply Nat.leb_le. lia.
Qed.

Lemma endswith_split (s p : string) :
  PyStr.endswith s p = true → ∃ a, s = a +:+ p.
Proof.
  unfold PyStr.endswith. intros [_ Heq%String.eqb_eq]%andb_true_iff.
  exists (PyStr.take (String.length s - String.length p) s).
  rewrite <- Heq at 2. by rewrite str_take_drop.
Qed.

Lemma drop_end_app (s p : string) :
  PyStr.drop_end (String.length p) (s +:+ p) = s.
Proof.
  unfold PyStr.drop_end. rewrite str_length_app.
  replace (String.length s + String.length p - String.length p)%nat
    with (String.length s) by lia.
  apply str_take_app.
Qed.

Lemma endswith_last (s p : string) :
  p ≠ "" → last_char s ≠ last_char p → PyStr.endswith s p = false.
Proof.
  intros Hp Hlast. destruct (PyStr.endswith s p) eqn:E; [|done].
  apply endswith_split in E as [a ->]. by rewrite last_char_app in Hlast.
Qed.

Lemma contains_lacks (c : ascii) (n s : string) :
  lacks c s → PyStr.contains (String c n) s = false.
Proof.
  induction s as [|d s IH]; [done|]. intros [Hc Hs]%lacks_cons.
  cbn [PyStr.contains]. rewrite prefix_cons.
  rewrite bool_decide_eq_false_2 by done. by apply IH.
Qed.

Lemma contains_app (n a b : string) :
  PyStr.contains n (a +:+ n +:+ b) = true.
Proof.
  induction a as [|c a IH].
  - rewrite str_app_nil_l. destruct (n +:+ b) eqn:E; cbn [PyStr.contains].
    + destruct n; [done|by rewrite str_app_cons in E].
    + rewrite <- E. fold (PyStr.startswith (n +:+ b) n).
      by rewrite startswith_app.
  - rewrite str_app_cons. cbn [PyStr.contains]. rewrite IH. apply orb_true_r.
Qed.

Lemma only_chars_cons (c : ascii) (s chars : string) :
  only_chars (String c s) chars = true
  ↔ PyStr.char_in c chars = true ∧ only_chars s chars = true.
Proof. unfold only_chars. cbn. apply andb_true_iff. Qed.

Lemma is_digits_cons (s : string) :
  is_digits s = true →
  ∃ c s', s = String c s' ∧ PyStr.char_in c "0123456789" = true
          ∧ only_chars s' "0123456789" = true.
Proof.
  unfold is_digits. destruct s as [|c s']; [done|].
  cbn [String.eqb negb andb]. intros [Hc Hs]%only_chars_cons. eauto.
Qed.

Lemma is_digits_last (s : string) :
  is_digits s = true →
  ∃ c, last_char s = Some c ∧ PyStr.char_in c "0123456789" = true.
Proof.
  unfold is_digits. intros [Hne Hs]%andb_true_iff.
  apply last_char_only; [|done]. by destruct s.
Qed.

Lemma is_digits_lacks (s : string) (c : ascii) :
  is_digits s = true → PyStr.char_in c "0123456789" = false → lacks c s.
Proof.
  unfold is_digits. intros [_ Hs]%andb_true_iff Hc.
  by apply (only_chars_lacks _ "0123456789").
Qed.

Section CompareCases.
Context `{Externals}.

Lemma compare_ge_prefix (tag : string) (conv : pyval → result pyval)
    (info_v : pyval) (value : string) (fuzzy reverse : bool) :
  String.eqb value "none" = false → String.eqb value "any" = false →
  PyStr.startswith value ">=" = true →
  compare tag conv info_v value fuzzy reverse
  = do rhs <- conv (VStr (PyStr.drop 2 value)); Py.ge info_v rhs.
Proof. intros H1 H2 H3. unfold compare. by rewrite H1, H2, H3. Qed.

Lemma compare_ge_suffix (tag : string) (conv : pyval → result pyval)
    (info_v : pyval) (value : string) (fuzzy reverse : bool) :
  String.eqb value "none" = false → String.eqb value "any" = false →
  PyStr.startswith value ">=" = false →
  PyStr.endswith value ".." = true →
  compare tag conv info_v value fuzzy reverse
  = do rhs <- conv (VStr (PyStr.drop_end 2 value)); Py.ge info_v rhs.
Proof. intros H1 H2 H3 H4. unfold compare. by rewrite H1, H2, H3, H4. Qed.

Lemma compare_le_prefix (tag : string) (conv : pyval → result pyval)
    (info_v : pyval) (value : string) (fuzzy reverse : bool) :
  String.eqb value "none" = false → String.eqb value "any" = false →
  PyStr.startswith value ">=" = false →
  PyStr.endswith value ".." = false →
  PyStr.startswith value "<=" || PyStr.startswith value ".." = true →
  compare tag conv info_v value fuzzy reverse
  = do rhs <- conv (VStr (PyStr.drop 2 value)); Py.le info_v rhs.
Proof.
  intros H1 H2 H3 H4 H5. unfold compare. by rewrite H1, H2, H3, H4, H5.
Qed.

Lemma compare_gt_prefix (tag : string) (conv : pyval → result pyval)
    (info_v : pyval) (value : string) (fuzzy reverse : bool) :
  String.eqb value "none" = false → String.eqb value "any" = false →
  PyStr.startswith value ">=" = false →
  PyStr.endswith value ".." = false →
  PyStr.startswith value "<=" || PyStr.startswith value ".." = false →
  PyStr.startswith value ">" = true →
  compare tag conv info_v value fuzzy reverse
  = do rhs <- conv (VStr (PyStr.drop 1 value)); Py.gt info_v rhs.
Proof.
  intros H1 H2 H3 H4 H5 H6. unfold compare.
  by rewrite H1, H2, H3, H4, H5, H6.
Qed.

Lemma compare_lt_prefix (tag : string) (conv : pyval → result pyval)
    (info_v : pyval) (value : string) (fuzzy reverse : bool) :
  String.eqb value "none" = false → String.eqb value "any" = false →
  PyStr.startswith value ">=" = false →
  PyStr.endswith value ".." = false →
  PyStr.startswith value "<=" || PyStr.startswith value ".." = false →
  PyStr.startswith value ">" = false →
  PyStr.startswith value "<" = true →
  compare tag conv info_v value fuzzy reverse
  = do rhs <- conv (VStr (PyStr.drop 1 value)); Py.lt info_v rhs.
Proof.
  intros H1 H2 H3 H4 H5 H6 H7. unfold compare.
  by rewrite H1, H2, H3, H4, H5, H6, H7.
Qed.

Lemma meta_num_match_with_compare (post : Post) (tag value : string) :
  _meta_num_match post tag value
  = with_compare post tag (fun e info_v =>
      compare tag (apply_converter (convert e)) info_v value
        (entry_contains "eq_fuzzy_20" e) (entry_contains "reverse_cmp" e)).
Proof. reflexivity. Qed.

Lemma with_compare_ext (post : Post) (tag : string)
    (k k' : num_entry → pyval → result bool) :
  (∀ e v, k e v = k' e v) → with_compare post tag k = with_compare post tag k'.
Proof.
  intros Hk. unfold with_compare.
  destruct (table_get META_NUM_TAGS tag) as [e|]; [|done]. cbn [bind].
  destruct (getitem (info post) (field e)); [|done]. cbn [bind].
  destruct (apply_converter (convert e) _); [|done]. cbn [bind].
  by rewrite Hk.
Qed.

End CompareCases.

Lemma eqb_last (s t : string) :
  last_char s ≠ last_char t → String.eqb s t = false.
Proof.
  intros Hlast. destruct (String.eqb_spec s t) as [->|]; done.
Qed.

(** X6: the two spellings of "at least" agree: [>=N] and [N..] evaluate
    alike on every post, for every metatag. *)
Theorem at_least_spellings_agree `{Externals} (post : Post)
    (tag n : string) :
  PyStr.startswith (n +:+ "..") ">=" = false →
  _meta_num_match post tag (">=" +:+ n)
  = _meta_num_match post tag (n +:+ "..").
Proof.
  intros Hn. rewrite !meta_num_match_with_compare.
  apply with_compare_ext. intros e v.
  rewrite compare_ge_prefix; [|done|done|apply (startswith_app ">=")].
  rewrite compare_ge_suffix; [| | |done|apply endswith_app].
  - pose proof (drop_end_app n "..") as Hd. cbn [String.length] in Hd.
    by rewrite Hd.
  - apply eqb_last. by rewrite last_char_app.
  - apply eqb_last. by rewrite last_char_app.
Qed.

Lemma at_least_spellings_agree_witness :
  let post := Sample.post [("score", VInt 7)] in
  PyStr.startswith ("5" +:+ "..") ">=" = false
  ∧ Sample._meta_num_match post "score" ">=5" = Ok true
  ∧ Sample._meta_num_match post "score" ">=5"
    = Sample._meta_num_match post "score" "5..".
Proof.
  split; [reflexivity|]. split; [reflexivity|].
  exact (at_least_spellings_agree (H := Sample.externals)
           (Sample.post [("score", VInt 7)]) "score" "5" eq_refl).
Defined.

(** X7: the two spellings of "at most" agree: [<=N] and [..N] evaluate
    alike on every post, for every metatag, when neither ends with [..]. *)
Theorem at_most_spellings_agree `{Externals} (post : Post)
    (tag n : string) :
  PyStr.endswith ("<=" +:+ n) ".." = false →
  PyStr.endswith (".." +:+ n) ".." = false →
  _meta_num_match post tag ("<=" +:+ n)
  = _meta_num_match post tag (".." +:+ n).
Proof.
  intros H1 H2. rewrite !meta_num_match_with_compare.
  apply with_compare_ext. intros e v.
  rewrite (compare_le_prefix _ _ _ ("<=" +:+ n)); [|done..|].
  - rewrite (compare_le_prefix _ _ _ (".." +:+ n)); [done|done..|].
    rewrite (startswith_app ".." n). apply orb_true_r.
  - by rewrite (startswith_app "<=" n).
Qed.

Lemma at_most_spellings_agree_witness :
  let post := Sample.post [("score", VInt 7)] in
  PyStr.endswith ("<=" +:+ "5") ".." = false
  ∧ PyStr.endswith (".." +:+ "5") ".." = false
  ∧ Sample._meta_num_match post "score" "<=5" = Ok false
  ∧ Sample._meta_num_match post "score" "<=5"
    = Sample._meta_num_match post "score" "..5".
Proof.
  split; [reflexivity|]. split; [reflexivity|]. split; [reflexivity|].
  exact (at_most_spellings_agree (H := Sample.externals)
           (Sample.post [("score", VInt 7)]) "score" "5" eq_refl eq_refl).
Defined.

(** ** Integer metatags *)

Lemma int_entry_flags (tag : string) (e : num_entry) :
  table_get META_NUM_TAGS tag = Ok e → convert e = conv_int →
  entry_contains "reverse_cmp" e = false
  ∧ entry_contains "eq_fuzzy_20" e = false.
Proof.
  unfold META_NUM_TAGS. cbn [table_get].
  repeat match goal with
    | |- context [String.eqb ?k tag] =>
        destruct (String.eqb_spec k tag) as [<-|_];
        [intros [= <-]; try discriminate; by intros _|]
    end.
  done.
Qed.

Lemma int_order (w x : Z) :
  Py.ge (VInt w) (VInt x) = Ok (x <=? w)
  ∧ Py.le (VInt w) (VInt x) = Ok (w <=? x)
  ∧ Py.gt (VInt w) (VInt x) = Ok (x <? w)
  ∧ Py.lt (VInt w) (VInt x) = Ok (w <? x)
  ∧ Py.eq (VInt w) (VInt x) = (w =? x).
Proof.
  unfold Py.ge, Py.le, Py.gt, Py.lt, Py.eq, Py.order. cbn.
  destruct (Z.compare_spec w x), (Z.leb_spec x w), (Z.leb_spec w x),
    (Z.ltb_spec x w), (Z.ltb_spec w x), (Z.eqb_spec w x);
    repeat split; (done || lia).
Qed.

Ltac digit_cases H :=
  apply digit_cases in H;
  repeat (apply elem_of_cons in H as [->|H]; [reflexivity|]);
  by apply elem_of_nil in H.

Lemma digits_not_special (n : string) :
  is_digits n = true →
  special_syntax n = false ∧ PyStr.contains "," n = false.
Proof.
  intros Hn.
  destruct (is_digits_cons n Hn) as (c & s & -> & Hc & Hs).
  destruct (is_digits_last _ Hn) as (d & Hlast & Hd).
  assert (Hend : PyStr.endswith (String c s) ".." = false).
  { apply endswith_last; [done|]. rewrite Hlast. cbn. intros [= ->]. done. }
  split.
  - unfold special_syntax. rewrite Hend.
    rewrite (contains_lacks "." "." (String c s))
      by by apply is_digits_lacks.
    rewrite !orb_false_r.
    repeat (apply orb_false_iff; split); digit_cases Hc.
  - by apply (contains_lacks "," ""), is_digits_lacks.
Qed.

Lemma prefixed_digits_tests (op n : string) :
  is_digits n = true → op = ">=" ∨ op = "<=" ∨ op = ">" ∨ op = "<" →
  String.eqb (op +:+ n) "none" = false
  ∧ String.eqb (op +:+ n) "any" = false
  ∧ PyStr.endswith (op +:+ n) ".." = false
  ∧ PyStr.startswith (op +:+ n) ">=" = bool_decide (op = ">=")
  ∧ PyStr.startswith (op +:+ n) "<=" = bool_decide (op = "<=")
  ∧ PyStr.startswith (op +:+ n) ".." = false.
Proof.
  intros Hn Hop.
  destruct (is_digits_cons n Hn) as (c & s & -> & Hc & Hs).
  destruct (is_digits_last _ Hn) as (d & Hlast & Hd).
  assert (Hend : PyStr.endswith (op +:+ String c s) ".." = false).
  { apply endswith_last; [done|]. rewrite last_char_app by done.
    rewrite Hlast. cbn. intros [= ->]. done. }
  rewrite Hend.
  destruct Hop as [-> | [-> | [-> | ->]]]; repeat split; try reflexivity;
    digit_cases Hc.
Qed.

Lemma split_max_first_dots (a b : string) :
  lacks "." a → PyStr.split_max (a +:+ ".." +:+ b) ".." 1 = [a; b].
Proof.
  unfold PyStr.split_max. induction a as [|c a IH].
  - intros _. rewrite str_app_nil_l.
    change (".." +:+ b) with (String "." (String "." b)).
    cbn [PyStr.split_go]. change (".." : string) with (String "." (String "." "")).
    rewrite !prefix_cons, prefix_nil, !bool_decide_eq_true_2 by done.
    cbn. by rewrite split_budget_spent.
  - intros [Hc Ha]%lacks_cons. rewrite str_app_cons. cbn [PyStr.split_go].
    change (".." : string) with (String "." (String "." "")).
    rewrite prefix_cons, bool_decide_eq_false_2 by done.
    cbn [andb]. by rewrite IH.
Qed.

Lemma digits_range_value (a b : string) :
  is_digits a = true → is_digits b = true →
  range_value (a +:+ ".." +:+ b) = true.
Proof.
  intros Ha Hb.
  destruct (is_digits_cons a Ha) as (c & s & -> & Hc & Hs).
  destruct (is_digits_last _ Hb) as (d & Hlast & Hd).
  assert (Hend : PyStr.endswith (String c s +:+ ".." +:+ b) ".." = false).
  { apply endswith_last; [done|].
    rewrite last_char_app; [|by destruct b].
    rewrite last_char_app; [|by destruct b].
    rewrite Hlast. cbn. intros [= ->]. done. }
  unfold range_value. rewrite Hend, contains_app, andb_true_r.
  apply negb_true_iff. rewrite !orb_false_r.
  repeat (apply orb_false_iff; split); rewrite ?str_app_cons; digit_cases Hc.
Qed.

Section IntegerMetatags.
Context `{Externals}.
Context (post : Post) (tag : string) (e : num_entry) (w : Z).
Hypothesis (He : table_get META_NUM_TAGS tag = Ok e).
Hypothesis (Hint : convert e = conv_int).
Hypothesis (Hw : info post !! field e = Some (VInt w)).

Lemma int_match_unfold (value : string) :
  _meta_num_match post tag value
  = compare tag Builtin.int (VInt w) value false false.
Proof.
  destruct (int_entry_flags tag e He Hint) as [Hrev Hfuzzy].
  rewrite (meta_num_match_unfold post tag value e (VInt w) (VInt w));
    [|done|done|by rewrite Hint].
  rewrite Hrev, Hfuzzy, Hint. cbn [apply_converter negb].
  by destruct (compare _ _ _ _ _ _).
Qed.

Lemma int_of_digits (n : string) (x : Z) :
  Builtin.int_of_str n = Some x → Builtin.int (VStr n) = Ok (VInt x).
Proof. intros Hx. cbn. by rewrite Hx. Qed.

End IntegerMetatags.

(** X8: for an integer metatag and a post whose field is the integer [w],
    the terms [>=N], [<=N], [>N], [<N] and [N], with [N] a string of digits
    that reads as [x], test [x <= w], [w <= x], [x < w], [w < x] and
    [w = x]. *)
Theorem int_metatag_comparisons `{Externals} (post : Post) (tag : string)
    (e : num_entry) (w : Z) (n : string) (x : Z) :
  table_get META_NUM_TAGS tag = Ok e → convert e = conv_int →
  info post !! field e = Some (VInt w) →
  is_digits n = true → Builtin.int_of_str n = Some x →
  _meta_num_match post tag (">=" +:+ n) = Ok (x <=? w)
  ∧ _meta_num_match post tag ("<=" +:+ n) = Ok (w <=? x)
  ∧ _meta_num_match post tag (">" +:+ n) = Ok (x <? w)
  ∧ _meta_num_match post tag ("<" +:+ n) = Ok (w <? x)
  ∧ _meta_num_match post tag n = Ok (w =? x).
Proof.
  intros He Hint Hw Hn Hx.
  pose proof (int_of_digits n x Hx) as Hconv.
  destruct (int_order w x) as (Hge & Hle & Hgt & Hlt & Heq).
  rewrite !(int_match_unfold post tag e w He Hint Hw).
  repeat split.
  - destruct (prefixed_digits_tests ">=" n Hn) as (H1 & H2 & H3 & H4 & H6 & H5);
      [by left|].
    rewrite compare_ge_prefix; [|done|done|by rewrite H4].
    change (PyStr.drop 2 (">=" +:+ n)) with n. by rewrite Hconv.
  - destruct (prefixed_digits_tests "<=" n Hn) as (H1 & H2 & H3 & H4 & H6 & H5);
      [by right; left|].
    rewrite compare_le_prefix; [|done| done|by rewrite H4|done|].
    + change (PyStr.drop 2 ("<=" +:+ n)) with n. by rewrite Hconv.
    + by rewrite (startswith_app "<=" n).
  - destruct (prefixed_digits_tests ">" n Hn) as (H1 & H2 & H3 & H4 & H6 & H5);
      [by right; right; left|].
    rewrite compare_gt_prefix;
      [|done|done|by rewrite H4|done|by rewrite H5, H6|apply (startswith_app ">")].
    change (PyStr.drop 1 (">" +:+ n)) with n. by rewrite Hconv.
  - destruct (prefixed_digits_tests "<" n Hn) as (H1 & H2 & H3 & H4 & H6 & H5);
      [by right; right; right|].
    rewrite compare_lt_prefix;
      [|done|done|by rewrite H4|done|by rewrite H5, H6|done
       |apply (startswith_app "<")].
    change (PyStr.drop 1 ("<" +:+ n)) with n. by rewrite Hconv.
  - destruct (digits_not_special n Hn) as [Hs Hc].
    rewrite compare_plain_value by (unfold plain_value; by rewrite Hs, Hc).
    by rewrite Hconv, Heq.
Qed.

Lemma int_metatag_comparisons_witness :
  let post := Sample.post [("score", VInt 50)] in
  table_get META_NUM_TAGS "score" = Ok (entry "score" conv_int [])
  ∧ info post !! "score" = Some (VInt 50)
  ∧ is_digits "50" = true ∧ Builtin.int_of_str "50" = Some 50
  ∧ Sample._meta_num_match post "score" ">=50" = Ok true
  ∧ Sample._meta_num_match post "score" "<=50" = Ok true
  ∧ Sample._meta_num_match post "score" ">50" = Ok false
  ∧ Sample._meta_num_match post "score" "<50" = Ok false
  ∧ Sample._meta_num_match post "score" "50" = Ok true.
Proof.
  do 4 (split; [reflexivity|]).
  exact (int_metatag_comparisons (H := Sample.externals)
           (Sample.post [("score", VInt 50)]) "score"
           (entry "score" conv_int []) 50 "50" 50
           eq_refl eq_refl eq_refl eq_refl eq_refl).
Defined.

(** X9: for an integer metatag and a post whose field is the integer [w],
    the range term [A..B], with [A] and [B] strings of digits that read as
    [x] and [y], tests [x <= w <= y], both bounds included. *)
Theorem int_metatag_range `{Externals} (post : Post) (tag : string)
    (e : num_entry) (w : Z) (a b : string) (x y : Z) :
  table_get META_NUM_TAGS tag = Ok e → convert e = conv_int →
  info post !! field e = Some (VInt w) →
  is_digits a = true → Builtin.int_of_str a = Some x →
  is_digits b = true → Builtin.int_of_str b = Some y →
  _meta_num_match post tag (a +:+ ".." +:+ b)
  = Ok ((x <=? w) && (w <=? y)).
Proof.
  intros He Hint Hw Ha Hx Hb Hy.
  rewrite (int_match_unfold post tag e w He Hint Hw).
  rewrite (compare_range _ _ _ _ a b);
    [|by apply digits_range_value
     |by apply split_max_first_dots, is_digits_lacks].
  apply chain_le_ok with (VInt x) (VInt y).
  - by apply int_of_digits.
  - by apply int_of_digits.
  - apply int_order.
  - apply int_order.
Qed.

Lemma int_metatag_range_witness :
  let post := Sample.post [("image_width", VInt 2560)] in
  table_get META_NUM_TAGS "width" = Ok (entry "image_width" conv_int [])
  ∧ info post !! "image_width" = Some (VInt 2560)
  ∧ is_digits "1920" = true ∧ Builtin.int_of_str "1920" = Some 1920
  ∧ is_digits "2560" = true ∧ Builtin.int_of_str "2560" = Some 2560
  ∧ Sample._meta_num_match post "width" "1920..2560" = Ok true.
Proof.
  do 6 (split; [reflexivity|]).
  exact (int_metatag_range (H := Sample.externals)
           (Sample.post [("image_width", VInt 2560)]) "width"
           (entry "image_width" conv_int []) 2560 "1920" "2560" 1920 2560
           eq_refl eq_refl eq_refl eq_refl eq_refl eq_refl eq_refl).
Defined.

(** ** Values that no syntax accepts, [none] and [any] *)

(** X10: when a value reaches the final case of [compare] and the converter
    rejects it, the term raises the [ValueError] that names the term,
    whatever the converter raised. *)
Theorem rejected_plain_value_names_term `{Externals} (post : Post)
    (tag value : string) (e : num_entry) (raw info_v : pyval) (err : exn) :
  table_get META_NUM_TAGS tag = Ok e →
  info post !! field e = Some raw →
  apply_converter (convert e) raw = Ok info_v →
  plain_value value = true →
  apply_converter (convert e) (VStr value) = Raise err →
  _meta_num_match post tag value
  = Raise (ValueError ("Invalid search term value: '" +:+ tag +:+ ":"
                       +:+ value +:+ "'.")).
Proof.
  intros He Hraw Hv Hvalue Herr.
  rewrite (meta_num_match_unfold post tag value e raw info_v) by done.
  rewrite compare_plain_value by done. by rewrite Herr.
Qed.

Lemma rejected_plain_value_names_term_witness :
  let post := Sample.post [("score", VInt 50)] in
  table_get META_NUM_TAGS "score" = Ok (entry "score" conv_int [])
  ∧ info post !! "score" = Some (VInt 50)
  ∧ Builtin.int (VInt 50) = Ok (VInt 50)
  ∧ plain_value "high" = true
  ∧ Builtin.int (VStr "high")
    = Raise (ValueError "invalid literal for int() with base 10")
  ∧ Sample._meta_num_match post "score" "high"
    = Raise (ValueError "Invalid search term value: 'score:high'.").
Proof.
  do 5 (split; [reflexivity|]).
  exact (rejected_plain_value_names_term (H := Sample.externals)
           (Sample.post [("score", VInt 50)]) "score" "high"
           (entry "score" conv_int []) (VInt 50) (VInt 50) _
           eq_refl eq_refl eq_refl eq_refl eq_refl).
Defined.

(** X11: [any] tests the truth value of the converted field and [none] its
    negation, so exactly one of the two holds; for the reverse-comparison
    metatag [age] both are negated once more, so [age:none] holds when the
    converted date is truthy. *)
Theorem none_and_any `{Externals} (post : Post) (tag : string)
    (e : num_entry) (raw info_v : pyval) :
  table_get META_NUM_TAGS tag = Ok e →
  info post !! field e = Some raw →
  apply_converter (convert e) raw = Ok info_v →
  _meta_num_match post tag "any"
  = Ok (xorb (entry_contains "reverse_cmp" e) (Py.truthy info_v))
  ∧ _meta_num_match post tag "none"
    = Ok (negb (xorb (entry_contains "reverse_cmp" e) (Py.truthy info_v))).
Proof.
  intros He Hraw Hv.
  rewrite !(meta_num_match_unfold post tag _ e raw info_v) by done.
  unfold compare. cbn [String.eqb Ascii.eqb Bool.eqb bind].
  by destruct (entry_contains "reverse_cmp" e), (Py.truthy info_v).
Qed.

Lemma none_and_any_witness :
  let post := Sample.post [("children_num", VInt 0)] in
  table_get META_NUM_TAGS "child" = Ok (entry "children_num" conv_int [])
  ∧ info post !! "children_num" = Some (VInt 0)
  ∧ Builtin.int (VInt 0) = Ok (VInt 0)
  ∧ Sample._meta_num_match post "child" "any" = Ok false
  ∧ Sample._meta_num_match post "child" "none" = Ok true.
Proof.
  do 3 (split; [reflexivity|]).
  exact (none_and_any (H := Sample.externals)
           (Sample.post [("children_num", VInt 0)]) "child"
           (entry "children_num" conv_int []) (VInt 0) (VInt 0)
           eq_refl eq_refl eq_refl).
Defined.

(** X12: when the field of an integer metatag is [None], every term on it
    raises [TypeError], [none] and [any] included: the field is converted
    before the value is looked at. *)
Theorem int_metatag_none_field `{Externals} (post : Post)
    (tag value : string) (e : num_entry) :
  table_get META_NUM_TAGS tag = Ok e → convert e = conv_int →
  info post !! field e = Some VNone →
  _meta_num_match post tag value = Raise TypeError.
Proof.
  intros He Hint Hraw. unfold _meta_num_match, getitem.
  rewrite He. cbn [bind]. rewrite Hraw. cbn [bind]. by rewrite Hint.
Qed.

Lemma int_metatag_none_field_witness :
  let post := Sample.post [("parent_id", VNone)] in
  table_get META_NUM_TAGS "parent" = Ok (entry "parent_id" conv_int [])
  ∧ info post !! "parent_id" = Some VNone
  ∧ Sample._meta_num_match post "parent" "none" = Raise TypeError.
Proof.
  do 2 (split; [reflexivity|]).
  exact (int_metatag_none_field (H := Sample.externals)
           (Sample.post [("parent_id", VNone)]) "parent" "none"
           (entry "parent_id" conv_int []) eq_refl eq_refl eq_refl).
Defined.

(** ** Terms without a colon, terms with several *)











(** ** Post enrichment *)

Ltac bind_inv H :=
  match type of H with
  | bind ?m _ = Ok _ =>
      let E := fresh "E" in
      destruct m eqn:E; [cbn [bind] in H|discriminate H]
  end.

Section Enhance.
Context `{InfoEnv}.

Lemma enhance_new_dom (info new : gmap string pyval) (k : string) :
  Info.enhance_new info = Ok new → is_Some (new !! k) → k ∈ enhanced_keys.
Proof.
  unfold Info.enhance_new. intros Hnew.
  repeat bind_inv Hnew.
  destruct (info !! "file_ext") as [ext|].
  - destruct (negb (Py.eq ext (VStr "zip"))).
    + repeat bind_inv Hnew. injection Hnew as <-.
      rewrite <- elem_of_dom. rewrite !dom_insert_L, dom_singleton_L.
      unfold enhanced_keys. set_solver.
    + repeat bind_inv Hnew.
      destruct (http_head_length _) as [len|].
      * repeat bind_inv Hnew. injection Hnew as <-.
        rewrite <- elem_of_dom. rewrite !dom_insert_L, dom_singleton_L.
        unfold enhanced_keys. set_solver.
      * injection Hnew as <-.
        rewrite <- elem_of_dom. rewrite !dom_insert_L, dom_singleton_L.
        unfold enhanced_keys. set_solver.
  - injection Hnew as <-.
    rewrite <- elem_of_dom. rewrite !dom_insert_L, dom_singleton_L.
    unfold enhanced_keys. set_solver.
Qed.

Lemma enhance_new_ext (i1 i2 : gmap string pyval) :
  (∀ k, k ∈ enhance_inputs → i1 !! k = i2 !! k) →
  Info.enhance_new i1 = Info.enhance_new i2.
Proof.
  intros Hk. unfold Info.enhance_new, getitem.
  rewrite (Hk "children_ids"), (Hk "image_width"), (Hk "image_height"),
    (Hk "file_ext"), (Hk "file_url"), (Hk "file_size"),
    (Hk "large_file_url");
    [done|unfold enhance_inputs; set_solver..].
Qed.

Lemma enhance_lookup (info info' : gmap string pyval) (k : string) :
  Info.enhance info = Ok info' →
  ∃ new, Info.enhance_new info = Ok new
         ∧ info' !! k = match new !! k with
                        | Some v => Some v
                        | None => info !! k
                        end.
Proof.
  unfold Info.enhance. intros Hi. bind_inv Hi. injection Hi as <-.
  eexists. split; [done|]. rewrite lookup_union.
  by destruct (_ !! k), (info !! k).
Qed.

Lemma enhance_other_key (info info' : gmap string pyval) (k : string) :
  Info.enhance info = Ok info' → k ∉ enhanced_keys →
  info' !! k = info !! k.
Proof.
  intros Hi Hk. destruct (enhance_lookup _ _ k Hi) as (new & Hnew & ->).
  destruct (new !! k) eqn:E; [|done].
  exfalso. apply Hk. by eapply enhance_new_dom.
Qed.

(** The entries [enhance] always writes, and the three ways it ends. *)
Lemma enhance_new_inv (info new : gmap string pyval) :
  Info.enhance_new info = Ok new →
  ∃ ids w h area children mpixels,
    info !! "children_ids" = Some ids
    ∧ info !! "image_width" = Some w ∧ info !! "image_height" = Some h
    ∧ children = match ids with
                 | VStr s => VInt (Z.of_nat (length (Info.split_ws s)))
                 | _ => VInt 0
                 end
    ∧ Info.mul w h = Ok area
    ∧ Py.truediv area (VInt 1000000) = Ok mpixels
    ∧ new !! "children_num" = Some children
    ∧ new !! "mpixels" = Some mpixels
    ∧ new !! "site" = Some client_name
    ∧ new !! "site_url" = Some client_site_url
    ∧ new !! "fetch_date" = Some fetch_date_now
    ∧ is_Some (new !! "ratio_int") ∧ is_Some (new !! "ratio_float")
    ∧ match info !! "file_ext" with
      | None =>
          new !! "is_broken" = Some (VBool true)
          ∧ new !! "dl_url" = None ∧ new !! "dl_ext" = None
          ∧ new !! "dl_size" = None ∧ new !! "is_ugoira" = None
      | Some ext =>
          if Py.eq ext (VStr "zip") then
            ∃ url, info !! "large_file_url" = Some url
              ∧ new !! "is_ugoira" = Some (VBool true)
              ∧ new !! "dl_url" = Some url
              ∧ (∃ e, Info.last_dot_piece url = Ok e
                      ∧ new !! "dl_ext" = Some e)
              ∧ new !! "is_broken"
                = Some (VBool match http_head_length url with
                               | None => true
                               | Some _ => false
                               end)
          else
            new !! "is_broken" = Some (VBool false)
            ∧ new !! "is_ugoira" = Some (VBool false)
            ∧ new !! "dl_ext" = Some ext
            ∧ is_Some (info !! "file_url")
            ∧ new !! "dl_url" = info !! "file_url"
            ∧ is_Some (info !! "file_size")
            ∧ new !! "dl_size" = info !! "file_size"
      end.
Proof.
  unfold Info.enhance_new, getitem. intros Hnew.
  destruct (info !! "children_ids") as [ids|] eqn:Hids; [|discriminate].
  cbn [bind] in Hnew.
  destruct (info !! "image_width") as [w|] eqn:Hw;
    [|by destruct (Info.count_words ids) as [|[]]].
  destruct (info !! "image_height") as [h|] eqn:Hh;
    [|by destruct (Info.count_words ids) as [|[]]].
  exists ids, w, h.
  assert (Hchildren :
    match Info.count_words ids with
    | Raise AttributeError => Ok (VInt 0)
    | r => r
    end = Ok match ids with
             | VStr s => VInt (Z.of_nat (length (Info.split_ws s)))
             | _ => VInt 0
             end) by by destruct ids.
  rewrite Hchildren in Hnew. cbn [bind] in Hnew.
  destruct (Info.mul w h) as [area|] eqn:Harea; [|discriminate].
  cbn [bind] in Hnew.
  destruct (Py.truediv area _) as [mpixels|] eqn:Hmp; [|discriminate].
  cbn [bind] in Hnew.
  destruct (whratio_as_int w h) as [ri|]; [|discriminate]. cbn [bind] in Hnew.
  destruct (whratio_as_float w h) as [rf|]; [|discriminate].
  cbn [bind] in Hnew.
  eexists area, _, mpixels.
  do 3 (split; [done|]). split; [reflexivity|]. do 2 (split; [done|]).
  destruct (info !! "file_ext") as [ext|].
  - destruct (Py.eq ext (VStr "zip")); cbn [negb] in Hnew.
    + destruct (info !! "large_file_url") as [url|]; [|discriminate].
      cbn [bind] in Hnew.
      destruct (Info.last_dot_piece url) as [dl_ext|] eqn:Hext;
        [|discriminate].
      cbn [bind] in Hnew.
      destruct (http_head_length url) as [len|] eqn:Hhead.
      * repeat bind_inv Hnew. injection Hnew as <-.
        do 5 (split; [reflexivity|]). do 2 (split; [by eexists|]).
        exists url. rewrite Hhead.
        do 3 (split; [reflexivity|]). split; [|reflexivity].
        by exists dl_ext.
      * injection Hnew as <-.
        do 5 (split; [reflexivity|]). do 2 (split; [by eexists|]).
        exists url. rewrite Hhead.
        do 3 (split; [reflexivity|]). split; [|reflexivity].
        by exists dl_ext.
    + destruct (info !! "file_url") as [url|]; [|discriminate].
      cbn [bind] in Hnew.
      destruct (info !! "file_size") as [size|]; [|discriminate].
      cbn [bind] in Hnew. injection Hnew as <-.
      do 5 (split; [reflexivity|]). do 2 (split; [by eexists|]).
      do 3 (split; [reflexivity|]). split; [by eexists|].
      split; [reflexivity|]. split; [by eexists|reflexivity].
  - injection Hnew as <-.
    do 5 (split; [reflexivity|]). do 2 (split; [by eexists|]).
    repeat split; reflexivity.
Qed.

End Enhance.

Section EnhancedPosts.
Context `{Externals} `{InfoEnv}.

Lemma post_of_inv (raw : gmap string pyval) (post : Post) :
  Info.post_of raw = Ok post → Info.enhance raw = Ok (info post).
Proof.
  unfold Info.post_of. intros Hp. bind_inv Hp. by injection Hp as <-.
Qed.

Lemma enhance_inv (raw enhanced : gmap string pyval) :
  Info.enhance raw = Ok enhanced →
  ∃ new, Info.enhance_new raw = Ok new ∧ enhanced = new ∪ raw.
Proof.
  unfold Info.enhance. intros Hi. bind_inv Hi. injection Hi as <-.
  by eexists.
Qed.

Lemma enhance_written_key (info info' new : gmap string pyval) (k : string)
    (v : pyval) :
  Info.enhance info = Ok info' → Info.enhance_new info = Ok new →
  new !! k = Some v → info' !! k = Some v.
Proof.
  intros Hi Hnew Hk. destruct (enhance_lookup _ _ k Hi) as (new' & Hnew' & ->).
  rewrite Hnew in Hnew'. injection Hnew' as <-. by rewrite Hk.
Qed.

(** X15: [enhance] loses no key of the mapping it is given, and changes the
    value of none but the twelve keys it writes. *)
Theorem enhance_keeps_other_keys (raw enhanced : gmap string pyval)
    (k : string) :
  Info.enhance raw = Ok enhanced →
  (is_Some (raw !! k) → is_Some (enhanced !! k))
  ∧ (k ∉ enhanced_keys → enhanced !! k = raw !! k).
Proof.
  intros Hi. split; [|by apply enhance_other_key].
  destruct (enhance_lookup _ _ k Hi) as (new & _ & ->).
  by destruct (new !! k).
Qed.

(** X16: a plain tag is present on the enhanced post exactly when it is
    present in the raw info: enrichment does not change how the tag terms
    of a query are evaluated. *)
Theorem enhance_keeps_tags (raw : gmap string pyval) (post : Post)
    (tag : string) :
  Info.post_of raw = Ok post →
  _tag_present post tag = _tag_present (Build_Post raw) tag.
Proof.
  intros Hp%post_of_inv. unfold _tag_present, getitem. cbn [info].
  rewrite (enhance_other_key _ _ "tag_string" Hp); [done|].
  unfold enhanced_keys. set_solver.
Qed.

(** X17: [children_num] of an enhanced post is the number of
    whitespace-separated ids in [children_ids], and 0 when [children_ids]
    is not a string; [child:none] then holds exactly for the posts with no
    child and [child:any] for the others, neither raises. *)
Theorem child_metatag_after_enhance (raw : gmap string pyval) (post : Post)
    (ids : pyval) :
  Info.post_of raw = Ok post → raw !! "children_ids" = Some ids →
  info post !! "children_num" = Some (VInt (children_count ids))
  ∧ _meta_num_match post "child" "none" = Ok (children_count ids =? 0)
  ∧ _meta_num_match post "child" "any"
    = Ok (negb (children_count ids =? 0)).
Proof.
  intros Hp%post_of_inv Hids.
  assert (Hnum : info post !! "children_num"
                 = Some (VInt (children_count ids))).
  { destruct (enhance_lookup _ _ "children_num" Hp) as (new & Hnew & ->).
    destruct (enhance_new_inv _ _ Hnew)
      as (ids' & w & h & area & children & mp & Hids' & _ & _ & -> & _ & _
          & -> & _).
    rewrite Hids in Hids'. injection Hids' as <-. by destruct ids. }
  split; [done|].
  rewrite !(meta_num_match_unfold post "child" _
              (entry "children_num" conv_int []) _
              (VInt (children_count ids)) eq_refl Hnum eq_refl).
  unfold compare. cbn [String.eqb Ascii.eqb Bool.eqb bind].
  change (entry_contains "reverse_cmp" _) with false. cbn [negb].
  split; [|done]. f_equal. unfold Py.truthy.
  by destruct (children_count ids =? 0).
Qed.

(** X18: for a post whose file is not a zip archive, [enhance] copies the
    file extension, url and size to the download keys and marks the post as
    no animation; [dltype:v] and [filetype:v] then agree for every value. *)
Theorem plain_file_download_keys (raw : gmap string pyval) (post : Post)
    (ext : pyval) (v : string) :
  Info.post_of raw = Ok post → raw !! "file_ext" = Some ext →
  Py.eq ext (VStr "zip") = false →
  info post !! "dl_ext" = Some ext
  ∧ info post !! "dl_url" = raw !! "file_url"
  ∧ info post !! "dl_size" = raw !! "file_size"
  ∧ info post !! "is_ugoira" = Some (VBool false)
  ∧ meta_str_term post ("dltype:" +:+ v)
    = meta_str_term post ("filetype:" +:+ v).
Proof.
  intros Hp%post_of_inv Hext Hzip.
  destruct (enhance_lookup _ _ "dl_ext" Hp) as (new & Hnew & Hdl_ext).
  destruct (enhance_new_inv _ _ Hnew)
    as (_ & _ & _ & _ & _ & _ & _ & _ & _ & _ & _ & _ & _ & _ & _ & _ & _
        & _ & _ & Hfile).
  rewrite Hext, Hzip in Hfile.
  destruct Hfile as (_ & Hug & Hde & [url Hurl] & Hdu & [size Hsize] & Hds).
  rewrite Hde in Hdl_ext.
  rewrite Hurl in Hdu. rewrite Hsize in Hds.
  rewrite (enhance_written_key _ _ _ _ _ Hp Hnew Hdu).
  rewrite (enhance_written_key _ _ _ _ _ Hp Hnew Hds).
  rewrite (enhance_written_key _ _ _ _ _ Hp Hnew Hug).
  do 4 (split; [done|]).
  unfold meta_str_term.
  change ("dltype:" +:+ v) with ("dltype" +:+ ":" +:+ v).
  change ("filetype:" +:+ v) with ("filetype" +:+ ":" +:+ v).
  rewrite (unpack_term_colon "dltype" v), (unpack_term_colon "filetype" v)
    by done.
  cbn [bind table_get META_STR_TAGS_FUNCS String.eqb Ascii.eqb Bool.eqb
       call_str_func fst snd].
  unfold getitem. rewrite Hdl_ext.
  rewrite (enhance_other_key _ _ "file_ext" Hp), Hext; [done|].
  unfold enhanced_keys. set_solver.
Qed.

(** X19: [status:broken] holds on an enhanced post exactly when the raw
    info has no [file_ext], or is a zip animation whose HEAD request got no
    usable response; the term never raises on an enhanced post. *)
Theorem status_broken_after_enhance (raw : gmap string pyval) (post : Post) :
  Info.post_of raw = Ok post →
  meta_str_term post "status:broken" = Ok (VBool (broken raw)).
Proof.
  intros Hp%post_of_inv.
  change (meta_str_term post "status:broken")
    with (getitem (info post) "is_broken").
  unfold getitem.
  destruct (enhance_lookup _ _ "is_broken" Hp) as (new & Hnew & ->).
  destruct (enhance_new_inv _ _ Hnew)
    as (_ & _ & _ & _ & _ & _ & _ & _ & _ & _ & _ & _ & _ & _ & _ & _ & _
        & _ & _ & Hfile).
  unfold broken. destruct (raw !! "file_ext") as [ext|].
  - destruct (Py.eq ext (VStr "zip")).
    + destruct Hfile as (url & -> & _ & _ & _ & ->). done.
    + by destruct Hfile as (-> & _).
  - by destruct Hfile as (-> & _).
Qed.

(** X20: enhancing twice is enhancing once, as long as the clock and the
    HTTP answers stay the same: [enhance] reads none of the keys it
    writes. *)
Theorem enhance_idempotent (raw enhanced : gmap string pyval) :
  Info.enhance raw = Ok enhanced → Info.enhance enhanced = Ok enhanced.
Proof.
  intros Hi. destruct (enhance_inv _ _ Hi) as (new & Hnew & Heq).
  unfold Info.enhance.
  rewrite (enhance_new_ext enhanced raw), Hnew.
  - cbn [bind]. by rewrite Heq, (assoc_L (∪)), (idemp_L (∪)).
  - intros k Hk. apply (enhance_other_key _ _ k Hi).
    unfold enhance_inputs in Hk. unfold enhanced_keys. set_solver.
Qed.

(** X21: [enhance] succeeds only on a mapping that has [children_ids],
    [image_width] and [image_height], and then, unless [file_ext] is
    missing, [large_file_url] for a zip archive and [file_url] and
    [file_size] for any other file; the enhanced post has the eight keys
    that do not depend on the file. *)
Theorem enhance_needs_and_gives (raw enhanced : gmap string pyval) :
  Info.enhance raw = Ok enhanced →
  is_Some (raw !! "children_ids") ∧ is_Some (raw !! "image_width")
  ∧ is_Some (raw !! "image_height")
  ∧ match raw !! "file_ext" with
    | None => True
    | Some ext =>
        if Py.eq ext (VStr "zip") then is_Some (raw !! "large_file_url")
        else is_Some (raw !! "file_url") ∧ is_Some (raw !! "file_size")
    end
  ∧ Forall (fun k => is_Some (enhanced !! k)) always_enhanced.
Proof.
  intros Hi. destruct (enhance_inv _ _ Hi) as (new & Hnew & ->).
  destruct (enhance_new_inv _ _ Hnew)
    as (ids & w & h & area & children & mp & Hids & Hw & Hh & _ & _ & _
        & Hc & Hmp & Hsite & Hurl & Hdate & [ri Hri] & [rf Hrf] & Hfile).
  do 3 (split; [by eexists|]). split.
  - destruct (raw !! "file_ext") as [ext|]; [|done].
    destruct (Py.eq ext (VStr "zip")).
    + destruct Hfile as (url & -> & _). by eexists.
    + by destruct Hfile as (_ & _ & _ & ? & _ & ? & _).
  - assert (Hb : is_Some (new !! "is_broken")).
    { destruct (raw !! "file_ext") as [ext|].
      - destruct (Py.eq ext (VStr "zip")).
        + destruct Hfile as (url & _ & _ & _ & _ & ->). by eexists.
        + destruct Hfile as (-> & _). by eexists.
      - destruct Hfile as (-> & _). by eexists. }
    destruct Hb as [b Hb].
    unfold always_enhanced.
    repeat (apply Forall_cons; split;
            [eexists; by eapply lookup_union_Some_l|]).
    apply Forall_nil_2.
Qed.

End EnhancedPosts.

Lemma enhance_keeps_other_keys_witness :
  SampleSite.enhance SampleSite.image
  = Ok (SampleSite.enhanced SampleSite.image)
  ∧ is_Some (SampleSite.enhanced SampleSite.image !! "tag_string")
  ∧ SampleSite.enhanced SampleSite.image !! "tag_string"
    = SampleSite.image !! "tag_string".
Proof.
  split; [reflexivity|].
  destruct (@enhance_keeps_other_keys SampleSite.env SampleSite.image
              (SampleSite.enhanced SampleSite.image) "tag_string" eq_refl)
    as [Hsome Hsame].
  split.
  - apply Hsome. by eexists.
  - apply Hsame. refine (bool_decide_unpack _ _). vm_compute. exact I.
Defined.

Lemma enhance_keeps_tags_witness :
  SampleSite.post_of SampleSite.image = Ok SampleSite.image_post
  ∧ Sample._tag_present SampleSite.image_post "solo"
    = Sample._tag_present (Build_Post SampleSite.image) "solo".
Proof.
  split; [reflexivity|].
  exact (@enhance_keeps_tags Sample.externals SampleSite.env
           SampleSite.image SampleSite.image_post "solo" eq_refl).
Defined.

Lemma child_metatag_after_enhance_witness :
  SampleSite.post_of SampleSite.image = Ok SampleSite.image_post
  ∧ SampleSite.image !! "children_ids" = Some (VStr "12 13")
  ∧ info SampleSite.image_post !! "children_num" = Some (VInt 2)
  ∧ Sample._meta_num_match SampleSite.image_post "child" "none" = Ok false
  ∧ Sample._meta_num_match SampleSite.image_post "child" "any" = Ok true.
Proof.
  do 2 (split; [reflexivity|]).
  exact (@child_metatag_after_enhance Sample.externals SampleSite.env
           SampleSite.image SampleSite.image_post (VStr "12 13")
           eq_refl eq_refl).
Defined.

Lemma plain_file_download_keys_witness :
  SampleSite.post_of SampleSite.image = Ok SampleSite.image_post
  ∧ SampleSite.image !! "file_ext" = Some (VStr "png")
  ∧ Py.eq (VStr "png") (VStr "zip") = false
  ∧ info SampleSite.image_post !! "dl_ext" = Some (VStr "png")
  ∧ info SampleSite.image_post !! "dl_url"
    = SampleSite.image !! "file_url"
  ∧ info SampleSite.image_post !! "dl_size"
    = SampleSite.image !! "file_size"
  ∧ info SampleSite.image_post !! "is_ugoira" = Some (VBool false)
  ∧ meta_str_term SampleSite.image_post "dltype:png"
    = meta_str_term SampleSite.image_post "filetype:png".
Proof.
  do 3 (split; [reflexivity|]).
  exact (@plain_file_download_keys SampleSite.env
           SampleSite.image SampleSite.image_post (VStr "png") "png"
           eq_refl eq_refl eq_refl).
Defined.

Lemma status_broken_after_enhance_witness :
  SampleSite.post_of SampleSite.ugoira = Ok SampleSite.ugoira_post
  ∧ meta_str_term SampleSite.ugoira_post "status:broken"
    = Ok (VBool false).
Proof.
  split; [reflexivity|].
  exact (@status_broken_after_enhance SampleSite.env
           SampleSite.ugoira SampleSite.ugoira_post eq_refl).
Defined.

Lemma enhance_idempotent_witness :
  SampleSite.enhance SampleSite.ugoira
  = Ok (SampleSite.enhanced SampleSite.ugoira)
  ∧ SampleSite.enhance (SampleSite.enhanced SampleSite.ugoira)
    = Ok (SampleSite.enhanced SampleSite.ugoira).
Proof.
  split; [reflexivity|].
  exact (@enhance_idempotent SampleSite.env SampleSite.ugoira
           (SampleSite.enhanced SampleSite.ugoira) eq_refl).
Defined.

Lemma enhance_needs_and_gives_witness :
  SampleSite.enhance SampleSite.ugoira
  = Ok (SampleSite.enhanced SampleSite.ugoira)
  ∧ is_Some (SampleSite.ugoira !! "children_ids")
  ∧ is_Some (SampleSite.ugoira !! "image_width")
  ∧ is_Some (SampleSite.ugoira !! "image_height")
  ∧ is_Some (SampleSite.ugoira !! "large_file_url")
  ∧ Forall (fun k => is_Some (SampleSite.enhanced SampleSite.ugoira !! k))
      always_enhanced.
Proof.
  split; [reflexivity|].
  exact (@enhance_needs_and_gives SampleSite.env SampleSite.ugoira
           (SampleSite.enhanced SampleSite.ugoira) eq_refl).
Defined.

(** ** The command line *)

(** X22: [unesc] gives back a query that starts with a dash from either of
    its escaped forms, its result never starts with an escape, and so
    unescaping twice is unescaping once. *)
Theorem unesc_leaves_no_escape (s q : string) :
  Cli.unesc ("%-" +:+ q) = "-" +:+ q
  ∧ Cli.unesc ("\-" +:+ q) = "-" +:+ q
  ∧ PyStr.startswith (Cli.unesc s) "\-" = false
  ∧ PyStr.startswith (Cli.unesc s) "%-" = false
  ∧ Cli.unesc (Cli.unesc s) = Cli.unesc s.
Proof.
  assert (Hq : ∀ c, PyStr.startswith (String c (String "-" q))
                      (String c (String "-" "")) = true).
  { intros c. unfold PyStr.startswith. rewrite !prefix_cons, prefix_nil.
    by rewrite !bool_decide_eq_true_2. }
  split.
  { unfold Cli.unesc. change ("%-" +:+ q) with (String "%" (String "-" q)).
    by rewrite (Hq "%"%char), orb_true_r. }
  split.
  { unfold Cli.unesc. change ("\-" +:+ q) with (String "\" (String "-" q)).
    by rewrite (Hq "\"%char). }
  assert (Hs : PyStr.startswith (Cli.unesc s) "\-" = false
               ∧ PyStr.startswith (Cli.unesc s) "%-" = false).
  { unfold Cli.unesc.
    destruct (PyStr.startswith s "\-") eqn:H1;
      [|destruct (PyStr.startswith s "%-") eqn:H2]; cbn [orb]; [| |done].
    - destruct s as [|c [|d s]]; [done..|].
      change ("\-" : string) with (String "\" (String "-" "")) in H1.
      unfold PyStr.startswith in H1. rewrite !prefix_cons in H1.
      apply andb_true_iff in H1 as [_ [Hd _]%andb_true_iff].
      apply bool_decide_eq_true_1 in Hd as <-. by cbn.
    - destruct s as [|c [|d s]]; [done..|].
      change ("%-" : string) with (String "%" (String "-" "")) in H2.
      unfold PyStr.startswith in H2. rewrite !prefix_cons in H2.
      apply andb_true_iff in H2 as [_ [Hd _]%andb_true_iff].
      apply bool_decide_eq_true_1 in Hd as <-. by cbn. }
  destruct Hs as [H1 H2]. do 2 (split; [done|]).
  unfold Cli.unesc at 1. by rewrite H1, H2.
Qed.


(** ** Queries of plain tags *)

Lemma str_app_nil_r (s : string) : s +:+ "" = s.
Proof. induction s as [|c s IH]; [done|]. by rewrite str_app_cons, IH. Qed.

Lemma shlex_word_cons (c : ascii) (w : string) :
  shlex_word (String c w) = true →
  PyStr.char_in c Shlex.whitespace = false
  ∧ PyStr.char_in c Shlex.quotes = false
  ∧ PyStr.char_in c Shlex.escape = false
  ∧ (w = "" ∨ shlex_word w = true).
Proof.
  unfold shlex_word. cbn [String.eqb negb andb list_ascii_of_string forallb].
  intros [[[H1 H2]%andb_true_iff H3]%andb_true_iff Hw]%andb_true_iff.
  apply negb_true_iff in H1, H2, H3. do 3 (split; [done|]).
  destruct w; [by left|right]. done.
Qed.

Lemma tokens_word (w rest token : string) (quoted : bool) :
  w = "" ∨ shlex_word w = true →
  Shlex.tokens Shlex.LWord token quoted (w +:+ rest)
  = Shlex.tokens Shlex.LWord (token +:+ w) quoted rest.
Proof.
  revert token. induction w as [|c w IH]; intros token Hw.
  - by rewrite str_app_nil_l, str_app_nil_r.
  - destruct Hw as [|Hw]; [done|].
    apply shlex_word_cons in Hw as (H1 & H2 & H3 & Hw).
    rewrite str_app_cons. cbn [Shlex.tokens]. rewrite H1, H2, H3.
    rewrite IH by done. unfold Shlex.push.
    by rewrite str_app_assoc.
Qed.

Lemma tokens_start (w rest : string) :
  shlex_word w = true →
  Shlex.tokens Shlex.LWhite "" false (w +:+ rest)
  = Shlex.tokens Shlex.LWord w false rest.
Proof.
  destruct w as [|c w]; [done|]. intros Hw.
  apply shlex_word_cons in Hw as (H1 & H2 & H3 & Hw).
  rewrite str_app_cons. cbn [Shlex.tokens]. rewrite H1, H2, H3.
  by rewrite tokens_word.
Qed.

(** [shlex.split] gives back the words that were joined by spaces. *)
Lemma shlex_split_join (ws : list string) :
  Forall (fun w => shlex_word w = true) ws →
  Shlex.split (PyStr.join " " ws) = Ok ws.
Proof.
  unfold Shlex.split. induction 1 as [|w ws Hw Hws IH]; [done|].
  assert (Hne : String.eqb w "" = false).
  { apply andb_true_iff in Hw as [Hne _]. by apply negb_true_iff. }
  destruct ws as [|u ws].
  - cbn [PyStr.join]. rewrite <- (str_app_nil_r w) at 1.
    rewrite tokens_start by done. cbn [Shlex.tokens]. unfold Shlex.emit.
    by rewrite Hne.
  - change (PyStr.join " " (w :: u :: ws))
      with (w +:+ " " +:+ PyStr.join " " (u :: ws)).
    rewrite tokens_start by done.
    change (" " +:+ PyStr.join " " (u :: ws))
      with (String " " (PyStr.join " " (u :: ws))).
    cbn [Shlex.tokens]. change (PyStr.char_in " " Shlex.whitespace) with true.
    cbn match. rewrite Hne. cbn [negb orb]. by rewrite IH.
Qed.

Lemma shlex_word_lacks_space (w : string) :
  shlex_word w = true → w ≠ "" ∧ lacks " " w.
Proof.
  intros Hw. split; [by intros ->|].
  induction w as [|c w IH]; [done|].
  apply shlex_word_cons in Hw as (H1 & _ & _ & Hw).
  apply lacks_cons. split.
  - intros <-. done.
  - destruct Hw as [->|Hw]; [done|]. by apply IH.
Qed.

Lemma classify_tag_terms (ws : list string) :
  Forall (fun w => tag_term w = true) ws →
  classify_terms (list_to_set ws) = (list_to_set ws, ∅, ∅).
Proof.
  intros Hws. unfold classify_terms.
  assert (Hnum : filter (fun t => table_has META_NUM_TAGS (term_name t) = true)
                   (list_to_set ws : gset string) = ∅).
  { apply set_eq. intros t. rewrite elem_of_filter, elem_of_list_to_set.
    split; [|by intros ?%elem_of_empty]. intros [Ht Hin].
    rewrite Forall_forall in Hws. specialize (Hws t Hin).
    unfold tag_term in Hws. rewrite Ht in Hws.
    by rewrite andb_false_r in Hws. }
  assert (Hstr : filter (fun t => table_has META_STR_TAGS_FUNCS (term_name t)
                                  = true)
                   (list_to_set ws : gset string) = ∅).
  { apply set_eq. intros t. rewrite elem_of_filter, elem_of_list_to_set.
    split; [|by intros ?%elem_of_empty]. intros [Ht Hin].
    rewrite Forall_forall in Hws. specialize (Hws t Hin).
    unfold tag_term in Hws. rewrite Ht in Hws.
    by rewrite andb_false_r in Hws. }
  rewrite Hnum, Hstr. by rewrite !difference_empty_L.
Qed.

Section PlainQueries.
Context `{Externals}.

Lemma forallb_same_elements {A} (p : A → bool) (l l' : list A) :
  (∀ x, x ∈ l ↔ x ∈ l') → forallb p l = forallb p l'.
Proof.
  intros Hl. apply eq_true_iff_eq. rewrite !forallb_forall.
  setoid_rewrite <- list_elem_of_In. by setoid_rewrite Hl.
Qed.

Lemma filter_post_tag_terms (tags : Post → list string) (ws : list string)
    (p : Post) :
  Forall (fun w => tag_term w = true) ws → tagged tags p →
  _filter_post p (list_to_set ws) ∅ ∅ false
  = Ok (Decision (has_tags tags ws p)).
Proof.
  intros Hws [Hinfo Htags].
  assert (Hlacks : Forall (lacks " ") (tags p)).
  { eapply Forall_impl; [exact Htags|].
    intros t [_ Ht]. by apply whitespace_free_lacks_space. }
  set (l := elements (list_to_set ws : gset string)).
  assert (Hl : ∀ w, w ∈ l ↔ w ∈ ws).
  { intros w. unfold l. by rewrite elem_of_elements, elem_of_list_to_set. }
  assert (Hterm : ∀ w, w ∈ l → tag_term w = true).
  { intros w Hw%Hl. rewrite Forall_forall in Hws. by apply Hws. }
  assert (Hpresent : ∀ w, w ∈ l →
            _tag_present p w = Ok (bool_decide (w ∈ tags p))).
  { intros w Hw%Hterm. unfold tag_term in Hw.
    apply andb_true_iff in Hw as [[[[Hw _]%andb_true_iff _]%andb_true_iff
                                    _]%andb_true_iff _].
    apply shlex_word_lacks_space in Hw as [Hne Hsp].
    by apply tag_present_join. }
  pose proof (filter_post_decision p l [] []) as Hd.
  cbn zeta in Hd. 
  specialize (Hd ltac:(rewrite app_nil_r; apply NoDup_elements)).
  cbn [forallb andb map app] in Hd.
  rewrite !andb_true_r, app_nil_r in Hd.
  assert (Hok : forallb (fun t => is_ok (VBool <$> _tag_present p t)) l
                = true).
  { apply forallb_forall. intros w Hw%list_elem_of_In.
    by rewrite Hpresent. }
  rewrite Hok in Hd.
  assert (Hitems :
    map (fun t => (t, term_value (fun t => VBool <$> _tag_present p t) t)) l
    = map (fun t => (t, VBool (bool_decide (t ∈ tags p)))) l).
  { apply map_ext_in. intros w Hw%list_elem_of_In.
    unfold term_value. by rewrite Hpresent. }
  rewrite Hitems in Hd.
  rewrite decide_presences_general in Hd; cycle 1.
  { apply Forall_forall. intros [w v] Hin.
    apply list_elem_of_In, in_map_iff in Hin as (w' & [= <- _] & Hw').
    apply list_elem_of_In, Hterm in Hw'. cbn [fst]. by intros ->. }
  cbn [fmap result_fmap decision orb] in Hd.
  assert (Hno_or : existsb (fun it : string * pyval => or_marked it.1)
                     (map (fun t => (t, VBool (bool_decide (t ∈ tags p)))) l)
                   = false).
  { apply not_true_iff_false. intros Hex.
    apply existsb_exists in Hex as ([w v] & Hin & Hor).
    apply in_map_iff in Hin as (w' & [= <- _] & Hw').
    apply list_elem_of_In, Hterm in Hw'. cbn [fst] in Hor.
    unfold tag_term in Hw'. rewrite Hor in Hw'.
    by rewrite !andb_false_r in Hw'. }
  rewrite Hno_or in Hd. cbn [andb negb] in Hd. rewrite andb_true_r in Hd.
  assert (Hall : forallb entry_passes
                   (map (fun t => (t, VBool (bool_decide (t ∈ tags p)))) l)
                 = has_tags tags ws p).
  { unfold has_tags. rewrite <- (forallb_same_elements _ l ws Hl).
    apply eq_true_iff_eq. rewrite !forallb_forall. split.
    - intros Hp w Hw. specialize (Hp _ (in_map _ _ _ Hw)).
      apply list_elem_of_In, Hterm in Hw. unfold tag_term in Hw.
      unfold entry_passes in Hp. cbn [fst snd] in Hp.
      destruct (or_marked w); [by rewrite !andb_false_r in Hw|].
      destruct (negated w); [by rewrite !andb_false_r in Hw|]. done.
    - intros Hp [w v] (w' & [= <- <-] & Hw)%in_map_iff.
      specialize (Hp _ Hw).
      apply list_elem_of_In, Hterm in Hw. unfold tag_term in Hw.
      unfold entry_passes. cbn [fst snd].
      destruct (or_marked w'); [by rewrite !andb_false_r in Hw|].
      destruct (negated w'); [by rewrite !andb_false_r in Hw|]. done. }
  rewrite Hall in Hd. unfold _filter_post.
  rewrite !elements_empty. fold l.
  destruct (filter_post_in_order p l [] [] false) as [[b|d]|e];
    cbn [decision] in Hd; congruence.
Qed.

Lemma search_loop_tag_terms (tags : Post → list string) (ws : list string)
    (posts : list Post) :
  Forall (fun w => tag_term w = true) ws → Forall (tagged tags) posts →
  search_loop posts (list_to_set ws) ∅ ∅ false
  = (YPost <$> List.filter (has_tags tags ws) posts, None).
Proof.
  intros Hws. induction 1 as [|p posts Hp _ IH]; [done|].
  cbn [search_loop List.filter].
  rewrite (filter_post_tag_terms tags) by done. rewrite IH.
  by destruct (has_tags tags ws p).
Qed.

End PlainQueries.

(** X23: a query of tag terms is a conjunction: [search] yields, in the
    order of the input, exactly the posts that have every tag of the query,
    and ends normally.  A tag term is a word without whitespace, quotes or
    backslashes that does not start with [-] or [~] and whose name is in
    neither table of metatags. *)
Theorem tag_query_is_conjunction `{Externals} (tags : Post → list string)
    (ws : list string) (posts : list Post) :
  Forall (fun w => tag_term w = true) ws →
  Forall (tagged tags) posts →
  search posts (PyStr.join " " ws) false
  = (YPost <$> List.filter (has_tags tags ws) posts, None).
Proof.
  intros Hws Hposts. unfold search, classify.
  rewrite shlex_split_join.
  - cbn [bind]. rewrite classify_tag_terms by done.
    by apply search_loop_tag_terms.
  - eapply Forall_impl; [exact Hws|]. intros w Hw. unfold tag_term in Hw.
    by destruct (shlex_word w).
Qed.

Lemma tag_query_is_conjunction_witness :
  let p1 := Sample.post [("tag_string", VStr "cat fluffy")] in
  let p2 := Sample.post [("tag_string", VStr "dog")] in
  let p3 := Sample.post [("tag_string", VStr "cat dog")] in
  Forall (fun w => tag_term w = true) ["dog"; "cat"]
  ∧ Forall (tagged tag_list) [p1; p2; p3]
  ∧ Sample.search [p1; p2; p3] "dog cat" false = ([YPost p3], None).
Proof.
  assert (Hws : Forall (fun w => tag_term w = true) ["dog"; "cat"])
    by (repeat constructor).
  assert (Hposts : Forall (tagged tag_list)
            [Sample.post [("tag_string", VStr "cat fluffy")];
             Sample.post [("tag_string", VStr "dog")];
             Sample.post [("tag_string", VStr "cat dog")]]).
  { repeat constructor; discriminate. }
  split; [exact Hws|]. split; [exact Hposts|].
  exact (tag_query_is_conjunction (H := Sample.externals) tag_list
           ["dog"; "cat"] _ Hws Hposts).
Defined.
